(** * quetz/config.py: configuration resolution, verified against its description

    A shallow embedding of [quetz/config.py].  The module is thin glue over
    three libraries -- [os], [toml] and pydantic's [BaseSettings] -- so the
    development is organised as follows.

    - [World]: what a call can observe of the operating system (the
      environment, which paths are regular files, what reading and parsing a
      file gives, the installed entry points).
    - [Lib]: library conversions whose result the module never inspects
      (JSON decoding of an environment value, pydantic's cross-type
      coercions, [dict(v)], [str.format]).  Every theorem holds for every
      [Lib].
    - The settings classes, transcribed field by field, and pydantic's
      construction of a [BaseSettings] instance: sources merged with
      initialiser arguments over environment over defaults, all defaults
      validated, unknown keys refused.
    - The [Config] class with its class-level registry [_instances], and the
      module-level functions. *)

From Stdlib Require Import String Ascii List Bool Arith Lia.
From stdpp Require Import gmap strings.
Import ListNotations.

Local Open Scope string_scope.
Local Open Scope list_scope.
Set Warnings "-register-all".

(** ** Python values and exceptions *)

(** The values a TOML or JSON document is made of.  A float is kept as its
    literal: no function of the module computes with one. *)
Inductive Value : Type :=
| VNone
| VBool (b : bool)
| VInt (z : Z)
| VFloat (literal : string)
| VStr (s : string)
| VList (l : list Value)
| VDict (d : list (string * Value)).

(** A [dict] with string keys, in insertion order. *)
Abbreviation Dict := (list (string * Value)).

(** What one line of a pydantic [ValidationError] reports. *)
Inductive ErrKind : Type :=
| EMissing                      (* field required *)
| EExtra                        (* extra fields not permitted *)
| ENoneNotAllowed               (* none is not an allowed value *)
| ENotADict                     (* value is not a valid dict *)
| EArbitraryType (cls : string) (* instance of cls expected *)
| EType (expected : string)     (* value is not a valid str, integer, ... *)
| ESettings (env_name : string) (* a nested SettingsError *).

(** One line of a [ValidationError]: the location, outermost name first. *)
Abbreviation ErrLine := (list string * ErrKind)%type.

Inductive Exc : Type :=
| AttributeError (cls attr : string)
| TypeError (msg : string)
| OSError (msg : string)
| ConfigError (msg : string)
| SettingsError (env_name : string)
| IndexError (msg : string)
| ValidationError (model : string) (errors : list ErrLine).

Inductive Result (A : Type) : Type :=
| Ok (a : A)
| Raise (e : Exc).
Arguments Ok {A} a.
Arguments Raise {A} e.

Definition bind {A B : Type} (r : Result A) (k : A -> Result B) : Result B :=
  match r with
  | Ok a => k a
  | Raise e => Raise e
  end.

Notation "'let*' x ':=' r 'in' k" := (bind r (fun x => k))
  (at level 10, x name, r at level 100, k at level 200).

(** ** Strings *)

Definition lower_ascii (c : ascii) : ascii :=
  let n := nat_of_ascii c in
  if (65 <=? n)%nat && (n <=? 90)%nat then ascii_of_nat (n + 32) else c.

Definition upper_ascii (c : ascii) : ascii :=
  let n := nat_of_ascii c in
  if (97 <=? n)%nat && (n <=? 122)%nat then ascii_of_nat (n - 32) else c.

(** [str.lower] and [str.upper], on ASCII text. *)
Fixpoint lower (s : string) : string :=
  match s with
  | EmptyString => EmptyString
  | String c s' => String (lower_ascii c) (lower s')
  end.

Fixpoint upper (s : string) : string :=
  match s with
  | EmptyString => EmptyString
  | String c s' => String (upper_ascii c) (upper s')
  end.

(** Truth value of a [str], and of an [Optional[str]]. *)
Definition str_truthy (s : string) : bool :=
  match s with
  | EmptyString => false
  | _ => true
  end.

Definition opt_truthy (o : option string) : bool :=
  match o with
  | Some s => str_truthy s
  | None => false
  end.

Fixpoint ends_with_slash (s : string) : bool :=
  match s with
  | EmptyString => false
  | String c EmptyString => Ascii.eqb c "/"
  | String _ s' => ends_with_slash s'
  end.

(** [os.path.join(a, b)] on POSIX. *)
Definition path_join (a b : string) : string :=
  match b with
  | String "/" _ => b
  | _ => if negb (str_truthy a) || ends_with_slash a then a ++ b
         else a ++ "/" ++ b
  end.

(** ** Dictionaries *)

Fixpoint dict_get {A : Type} (k : string) (d : list (string * A)) : option A :=
  match d with
  | [] => None
  | (k', v) :: d' => if String.eqb k k' then Some v else dict_get k d'
  end.

(** [d[k] = v]: an existing key keeps its position. *)
Fixpoint dict_set {A : Type} (k : string) (v : A) (d : list (string * A))
  : list (string * A) :=
  match d with
  | [] => [(k, v)]
  | (k', v') :: d' =>
      if String.eqb k k' then (k, v) :: d' else (k', v') :: dict_set k v d'
  end.

Definition dict_keys {A : Type} (d : list (string * A)) : list string :=
  map fst d.

Definition mem (k : string) (l : list string) : bool :=
  existsb (String.eqb k) l.

(** pydantic's [deep_update(mapping, updating)]: the updating value wins,
    except that two dictionaries under one key are merged recursively. *)
Fixpoint deep_update_value (old v : Value) {struct v} : Value :=
  match v, old with
  | VDict u, VDict m =>
      VDict ((fix go (u : Dict) (acc : Dict) {struct u} : Dict :=
                match u with
                | [] => acc
                | (k, v') :: u' =>
                    go u' (dict_set k
                             (match dict_get k acc with
                              | Some o => deep_update_value o v'
                              | None => v'
                              end) acc)
                end) u m)
  | _, _ => v
  end.

Definition is_dict (v : Value) : bool :=
  match v with
  | VDict _ => true
  | _ => false
  end.

Definition deep_update (mapping updating : Dict) : Dict :=
  match deep_update_value (VDict mapping) (VDict updating) with
  | VDict d => d
  | _ => updating
  end.

(** ** The operating system and the libraries *)

(** What [open(filename)] followed by [toml.load] gives. *)
Inductive FileOutcome : Type :=
| Unreadable (err : string)        (* open raises OSError *)
| Malformed (diagnostic : string)  (* toml.load raises TomlDecodeError *)
| Parsed (doc : Dict).

Record World : Type := {
  environ : list (string * string);  (* os.environ *)
  isfile : string -> bool;           (* os.path.isfile *)
  abspath : string -> string;        (* os.path.abspath *)
  getcwd : string;                   (* os.getcwd() *)
  toml_file : string -> FileOutcome;
  config_template : Result string;   (* the text of config.toml next to the module *)
  entry_points : list string         (* names of the installed entry points of group quetz *)
}.

(** [os.getenv(name)]. *)
Definition getenv (w : World) (name : string) : option string :=
  dict_get name (environ w).

(** The types the fields of the settings classes are declared with. *)
Inductive FieldType : Type :=
| TStr | TInt | TBool | TFloat
| TList       (* list *)
| TListStr    (* list[str] *)
| TOptInt     (* int | None *)
| TOptStr     (* str | None *)
| TStrOrBool  (* str | bool *).

Record Lib : Type := {
  json_loads : string -> option Value;           (* None: ValueError *)
  coerce : FieldType -> Value -> option Value;   (* pydantic on a value of another type *)
  dict_of : Value -> option Dict;                (* dict(v) for v not a dict *)
  str_format : string -> list string -> Result string
}.

(** ** The settings classes *)

(** A field: its name, its declared type and its default ([None]: the field
    is required). *)
Record Field : Type := {
  fname : string;
  ftype : FieldType;
  fdefault : option Value
}.

Record SectionClass : Type := {
  cls_name : string;
  env_prefix : string;
  fields : list Field
}.

Definition required (n : string) (t : FieldType) : Field :=
  {| fname := n; ftype := t; fdefault := None |}.
Definition defaulted (n : string) (t : FieldType) (v : Value) : Field :=
  {| fname := n; ftype := t; fdefault := Some v |}.

Definition SettingsGeneral : SectionClass :=
  {| cls_name := "SettingsGeneral"; env_prefix := "general";
     fields := [ defaulted "package_unpack_threads" TInt (VInt 1);
                 defaulted "frontend_dir" TStr (VStr "");
                 defaulted "redirect_http_to_https" TBool (VBool false) ] |}.

Definition SettingsCORS : SectionClass :=
  {| cls_name := "SettingsCORS"; env_prefix := "cors";
     fields := [ defaulted "allow_origins" TList (VList []);
                 defaulted "allow_credentials" TBool (VBool true);
                 defaulted "allow_methods" TListStr (VList [VStr "*"]);
                 defaulted "allow_headers" TListStr (VList [VStr "*"]) ] |}.

Definition SettingsGitHub : SectionClass :=
  {| cls_name := "SettingsGitHub"; env_prefix := "github";
     fields := [ required "client_id" TStr; required "client_secret" TStr ] |}.

Definition SettingsGitLab : SectionClass :=
  {| cls_name := "SettingsGitLab"; env_prefix := "gitlab";
     fields := [ defaulted "url" TStr (VStr "https://gitlab.com");
                 required "client_id" TStr; required "client_secret" TStr ] |}.

Definition SettingsAzureAD : SectionClass :=
  {| cls_name := "SettingsAzureAD"; env_prefix := "azuread";
     fields := [ required "client_id" TStr; required "client_secret" TStr;
                 required "tenant_id" TStr ] |}.

Definition SettingsSQLAlchemy : SectionClass :=
  {| cls_name := "SettingsSQLAlchemy"; env_prefix := "sqlalchemy";
     fields := [ required "database_url" TStr;
                 defaulted "database_plugin_path" TStr (VStr "");
                 defaulted "echo_sql" TBool (VBool false);
                 defaulted "postgres_pool_size" TInt (VInt 100);
                 defaulted "postgres_max_overflow" TInt (VInt 100) ] |}.

Definition SettingsSession : SectionClass :=
  {| cls_name := "SettingsSession"; env_prefix := "session";
     fields := [ required "secret" TStr;
                 defaulted "https_only" TBool (VBool true) ] |}.

Definition SettingsLocalStore : SectionClass :=
  {| cls_name := "SettingsLocalStore"; env_prefix := "local_store";
     fields := [ defaulted "redirect_enabled" TBool (VBool false);
                 defaulted "redirect_endpoint" TStr (VStr "/files");
                 defaulted "redirect_secret" TStr (VStr "");
                 defaulted "redirect_expiration" TInt (VInt 3600) ] |}.

Definition SettingsS3 : SectionClass :=
  {| cls_name := "SettingsS3"; env_prefix := "s3";
     fields := [ defaulted "access_key" TStr (VStr "");
                 defaulted "secret_key" TStr (VStr "");
                 defaulted "url" TStr (VStr "");
                 defaulted "region" TStr (VStr "");
                 defaulted "bucket_prefix" TStr (VStr "");
                 defaulted "bucket_suffix" TStr (VStr "") ] |}.

Definition SettingsAzureBlob : SectionClass :=
  {| cls_name := "SettingsAzureBlob"; env_prefix := "azure_blob";
     fields := [ defaulted "account_name" TStr (VStr "");
                 defaulted "account_access_key" TStr (VStr "");
                 defaulted "conn_str" TStr (VStr "");
                 defaulted "container_prefix" TStr (VStr "");
                 defaulted "container_suffix" TStr (VStr "") ] |}.

Definition SettingsGCS : SectionClass :=
  {| cls_name := "SettingsGCS"; env_prefix := "gcs";
     fields := [ defaulted "project" TStr (VStr "");
                 defaulted "token" TStr (VStr "");
                 defaulted "bucket_prefix" TStr (VStr "");
                 defaulted "bucket_suffix" TStr (VStr "");
                 defaulted "cache_timeout" TOptInt VNone;
                 defaulted "region" TOptStr VNone ] |}.

Definition SettingsGoogle : SectionClass :=
  {| cls_name := "SettingsGoogle"; env_prefix := "google";
     fields := [ required "client_id" TStr; required "client_secret" TStr ] |}.

Definition SettingsLogging : SectionClass :=
  {| cls_name := "SettingsLogging"; env_prefix := "logging";
     fields := [ defaulted "level" TStr (VStr "INFO");
                 defaulted "file" TStr (VStr "") ] |}.

Definition SettingsUsers : SectionClass :=
  {| cls_name := "SettingsUsers"; env_prefix := "users";
     fields := [ defaulted "admins" TListStr (VList []);
                 defaulted "maintainers" TListStr (VList []);
                 defaulted "members" TListStr (VList []);
                 defaulted "default_role" TStrOrBool (VBool false);
                 defaulted "collect_emails" TBool (VBool false);
                 defaulted "create_default_channel" TBool (VBool false) ] |}.

(** [SettingsWorker] does not derive from [BaseSettings]: these are plain
    class attributes, and no file or environment value is ever an instance
    of the class. *)
Definition SettingsWorker : SectionClass :=
  {| cls_name := "SettingsWorker"; env_prefix := "worker";
     fields := [ defaulted "type" TStr (VStr "thread");
                 defaulted "redis_ip" TStr (VStr "127.0.0.1");
                 defaulted "redis_port" TInt (VInt 6379);
                 defaulted "redis_db" TInt (VInt 0) ] |}.

Definition SettingsPlugins : SectionClass :=
  {| cls_name := "SettingsPlugins"; env_prefix := "plugins";
     fields := [ defaulted "enabled" TListStr (VList []) ] |}.

Definition SettingsMirroring : SectionClass :=
  {| cls_name := "SettingsMirroring"; env_prefix := "mirroring";
     fields := [ defaulted "batch_length" TInt (VInt 10);
                 defaulted "batch_size" TInt (VFloat "1e8");
                 defaulted "num_parallel_downloads" TInt (VInt 10) ] |}.

Definition SettingsQuotas : SectionClass :=
  {| cls_name := "SettingsQuotas"; env_prefix := "quotas";
     fields := [ required "channel_quota" TInt ] |}.

Definition SettingsProfiling : SectionClass :=
  {| cls_name := "SettingsProfiling"; env_prefix := "profiling";
     fields := [ defaulted "enable_sampling" TBool (VBool false);
                 defaulted "interval_seconds" TFloat (VFloat "0.001") ] |}.

(** An instance of a section class: its validated field values, in the order
    of declaration. *)
Record SectionInst : Type := {
  inst_cls : string;
  inst_fields : Dict
}.

(** [class Settings(BaseSettings)]. *)
Record Settings : Type := {
  general : SectionInst;
  cors : option SectionInst;
  github : option SectionInst;
  gitlab : option SectionInst;
  azuread : option SectionInst;
  sqlalchemy : SectionInst;
  session : SectionInst;
  local_store : SectionInst;
  s3 : option SectionInst;
  azure_blob : option SectionInst;
  gcs : option SectionInst;
  google : option SectionInst;
  logging : option SectionInst;
  users : option SectionInst;
  worker : option SectionInst;
  plugins : SectionInst;
  mirroring : SectionInst;
  quotas : option SectionInst;
  profiling : option SectionInst
}.

Definition Settings_env_prefix : string := "quetz".

(** ** Construction of a [BaseSettings] instance

    [BaseSettings.__init__] builds the input of the model from its
    sources, [deep_update(secrets, environment, initialiser arguments)] (no
    secrets directory is configured, so the first is empty), and validates
    it.  The inherited configuration is [case_sensitive = False],
    [validate_all = True], [extra = forbid], no nested delimiter. *)

(** What [__init__] raises. *)
Inductive InitError : Type :=
| InitSettingsError (env_name : string)
| InitValidationError (model : string) (errors : list ErrLine).

Definition raise_init {A : Type} (e : InitError) : Result A :=
  match e with
  | InitSettingsError n => Raise (SettingsError n)
  | InitValidationError m errs => Raise (ValidationError m errs)
  end.

(** [{k.lower(): v for k, v in os.environ.items()}]. *)
Definition lowered_environ (env : list (string * string)) : list (string * string) :=
  fold_left (fun acc kv => dict_set (lower (fst kv)) (snd kv) acc) env [].

(** A field whose environment value is decoded as JSON. *)
Definition is_complex (t : FieldType) : bool :=
  match t with
  | TList | TListStr => true
  | _ => false
  end.

(** [EnvSettingsSource.__call__]: the variable of a field is the class's
    [env_prefix] followed by the field name, lowercased.  The result is the
    dictionary of the values found, or the name of the variable whose value
    is not valid JSON (a [SettingsError]). *)
Fixpoint env_settings (L : Lib) (prefix : string) (fs : list (string * bool))
    (env_vars : list (string * string)) (d : Dict) : Dict + string :=
  match fs with
  | [] => inl d
  | (name, complex) :: fs' =>
      let env_name := lower (prefix ++ name) in
      match dict_get env_name env_vars with
      | None => env_settings L prefix fs' env_vars d
      | Some raw =>
          if complex then
            match json_loads L raw with
            | Some v => env_settings L prefix fs' env_vars (dict_set name v d)
            | None => inr env_name
            end
          else env_settings L prefix fs' env_vars (dict_set name (VStr raw) d)
      end
  end.

(** The input of the model. *)
Definition build_values (env_d init_kwargs : Dict) : Dict :=
  deep_update (deep_update [] env_d) init_kwargs.

Definition allows_none (t : FieldType) : bool :=
  match t with
  | TOptInt | TOptStr => true
  | _ => false
  end.

Definition is_str (v : Value) : bool :=
  match v with
  | VStr _ => true
  | _ => false
  end.

(** A value that already has the declared type is kept as it is. *)
Definition well_typed (t : FieldType) (v : Value) : bool :=
  match t, v with
  | TStr, VStr _ | TInt, VInt _ | TBool, VBool _ | TFloat, VFloat _ => true
  | TList, VList _ => true
  | TListStr, VList l => forallb is_str l
  | TOptInt, VInt _ | TOptStr, VStr _ => true
  | TStrOrBool, VStr _ => true
  | _, _ => false
  end.

Definition type_name (t : FieldType) : string :=
  match t with
  | TStr | TOptStr | TStrOrBool => "str"
  | TInt | TOptInt => "integer"
  | TBool => "bool"
  | TFloat => "float"
  | TList | TListStr => "list"
  end.

Definition validate_value (L : Lib) (t : FieldType) (v : Value) : Value + ErrKind :=
  match v with
  | VNone => if allows_none t then inl VNone else inr ENoneNotAllowed
  | _ =>
      if well_typed t v then inl v
      else match coerce L t v with
           | Some v' => inl v'
           | None => inr (EType (type_name t))
           end
  end.

(** One field of [validate_model]: the input value, else the default (which
    is validated too), else the field is missing. *)
Definition validate_field (L : Lib) (input : Dict) (f : Field) : Value + ErrKind :=
  match dict_get (fname f) input with
  | Some v => validate_value L (ftype f) v
  | None =>
      match fdefault f with
      | Some dv => validate_value L (ftype f) dv
      | None => inr EMissing
      end
  end.

Fixpoint validate_fields (L : Lib) (input : Dict) (fs : list Field)
  : Dict * list ErrLine :=
  match fs with
  | [] => ([], [])
  | f :: fs' =>
      let (vals, errs) := validate_fields L input fs' in
      match validate_field L input f with
      | inl v => ((fname f, v) :: vals, errs)
      | inr e => (vals, ([fname f], e) :: errs)
      end
  end.

Fixpoint insert_sorted (k : string) (l : list string) : list string :=
  match l with
  | [] => [k]
  | k' :: l' => if String.leb k k' then k :: l else k' :: insert_sorted k l'
  end.

Definition sorted (l : list string) : list string :=
  fold_right insert_sorted [] l.

(** [extra = forbid]: the keys of the input that name no field, sorted. *)
Definition extra_errors (input : Dict) (names : list string) : list ErrLine :=
  map (fun k => ([k], EExtra))
      (sorted (filter (fun k => negb (mem k names)) (dict_keys input))).

(** The call of a section class on keyword arguments [kwargs]. *)
Definition Section_init (L : Lib) (env : list (string * string))
    (c : SectionClass) (kwargs : Dict) : SectionInst + InitError :=
  match env_settings L (env_prefix c)
          (map (fun f => (fname f, is_complex (ftype f))) (fields c))
          (lowered_environ env) [] with
  | inr env_name => inr (InitSettingsError env_name)
  | inl env_d =>
      let input := build_values env_d kwargs in
      let (vals, errs) := validate_fields L input (fields c) in
      match errs ++ extra_errors input (map fname (fields c)) with
      | [] => inl {| inst_cls := cls_name c; inst_fields := vals |}
      | errors => inr (InitValidationError (cls_name c) errors)
      end
  end.

(** The lines an error of a nested model contributes to the enclosing one:
    a nested [ValidationError] is flattened under the field's name, a nested
    [SettingsError] (a [ValueError]) becomes one line. *)
Definition nested (loc : string) (e : InitError) : list ErrLine :=
  match e with
  | InitValidationError _ errs => map (fun le => (loc :: fst le, snd le)) errs
  | InitSettingsError n => [([loc], ESettings n)]
  end.

(** Validation of a value against a section class: the class is called on
    the value when it is a dictionary, on [dict(value)] otherwise. *)
Definition validate_section (L : Lib) (env : list (string * string))
    (c : SectionClass) (loc : string) (v : Value) : SectionInst + list ErrLine :=
  match v with
  | VNone => inr [([loc], ENoneNotAllowed)]
  | _ =>
      match (match v with VDict d => Some d | _ => dict_of L v end) with
      | None => inr [([loc], ENotADict)]
      | Some d =>
          match Section_init L env c d with
          | inl i => inl i
          | inr e => inr (nested loc e)
          end
      end
  end.

(** [name: cls] *)
Definition required_section (L : Lib) (env : list (string * string))
    (c : SectionClass) (loc : string) (input : Dict) : SectionInst + list ErrLine :=
  match dict_get loc input with
  | Some v => validate_section L env c loc v
  | None => inr [([loc], EMissing)]
  end.

(** [name: cls = cls()]: the default is the instance made when the class
    [Settings] was defined; validating an instance copies it. *)
Definition defaulted_section (L : Lib) (env : list (string * string))
    (c : SectionClass) (loc : string) (input : Dict) (default : SectionInst)
  : SectionInst + list ErrLine :=
  match dict_get loc input with
  | Some v => validate_section L env c loc v
  | None => inl default
  end.

(** [name: Optional[cls] = None] *)
Definition optional_section (L : Lib) (env : list (string * string))
    (c : SectionClass) (loc : string) (input : Dict)
  : option SectionInst + list ErrLine :=
  match dict_get loc input with
  | Some VNone | None => inl None
  | Some v =>
      match validate_section L env c loc v with
      | inl i => inl (Some i)
      | inr errs => inr errs
      end
  end.

(** [name: Optional[cls] = None] for a class that is no pydantic model
    ([arbitrary_types_allowed]): the value must already be an instance. *)
Definition optional_instance (c : SectionClass) (loc : string) (input : Dict)
  : option SectionInst + list ErrLine :=
  match dict_get loc input with
  | Some VNone | None => inl None
  | Some _ => inr [([loc], EArbitraryType (cls_name c))]
  end.

Definition errors_of {A : Type} (r : A + list ErrLine) : list ErrLine :=
  match r with
  | inl _ => []
  | inr errs => errs
  end.

(** The instances [SettingsGeneral()], [SettingsLocalStore()],
    [SettingsPlugins()] and [SettingsMirroring()] that the body of
    [class Settings] evaluates once, when the module is imported. *)
Record Defaults : Type := {
  default_general : SectionInst;
  default_local_store : SectionInst;
  default_plugins : SectionInst;
  default_mirroring : SectionInst
}.

(** The fields of [Settings] and whether their environment value is decoded
    as JSON: every field that is a model, so all but [worker]. *)
Definition Settings_fields : list (string * bool) :=
  [ ("general", true); ("cors", true); ("github", true); ("gitlab", true);
    ("azuread", true); ("sqlalchemy", true); ("session", true);
    ("local_store", true); ("s3", true); ("azure_blob", true); ("gcs", true);
    ("google", true); ("logging", true); ("users", true); ("worker", false);
    ("plugins", true); ("mirroring", true); ("quotas", true);
    ("profiling", true) ].

(** The call of [Settings] on keyword arguments [kwargs]. *)
Definition Settings_init (L : Lib) (env : list (string * string))
    (dflt : Defaults) (kwargs : Dict) : Settings + InitError :=
  match env_settings L Settings_env_prefix Settings_fields (lowered_environ env) [] with
  | inr env_name => inr (InitSettingsError env_name)
  | inl env_d =>
      let input := build_values env_d kwargs in
      let r_general := defaulted_section L env SettingsGeneral "general" input (default_general dflt) in
      let r_cors := optional_section L env SettingsCORS "cors" input in
      let r_github := optional_section L env SettingsGitHub "github" input in
      let r_gitlab := optional_section L env SettingsGitLab "gitlab" input in
      let r_azuread := optional_section L env SettingsAzureAD "azuread" input in
      let r_sqlalchemy := required_section L env SettingsSQLAlchemy "sqlalchemy" input in
      let r_session := required_section L env SettingsSession "session" input in
      let r_local_store := defaulted_section L env SettingsLocalStore "local_store" input (default_local_store dflt) in
      let r_s3 := optional_section L env SettingsS3 "s3" input in
      let r_azure_blob := optional_section L env SettingsAzureBlob "azure_blob" input in
      let r_gcs := optional_section L env SettingsGCS "gcs" input in
      let r_google := optional_section L env SettingsGoogle "google" input in
      let r_logging := optional_section L env SettingsLogging "logging" input in
      let r_users := optional_section L env SettingsUsers "users" input in
      let r_worker := optional_instance SettingsWorker "worker" input in
      let r_plugins := defaulted_section L env SettingsPlugins "plugins" input (default_plugins dflt) in
      let r_mirroring := defaulted_section L env SettingsMirroring "mirroring" input (default_mirroring dflt) in
      let r_quotas := optional_section L env SettingsQuotas "quotas" input in
      let r_profiling := optional_section L env SettingsProfiling "profiling" input in
      let errors :=
        errors_of r_general ++ errors_of r_cors ++ errors_of r_github
        ++ errors_of r_gitlab ++ errors_of r_azuread ++ errors_of r_sqlalchemy
        ++ errors_of r_session ++ errors_of r_local_store ++ errors_of r_s3
        ++ errors_of r_azure_blob ++ errors_of r_gcs ++ errors_of r_google
        ++ errors_of r_logging ++ errors_of r_users ++ errors_of r_worker
        ++ errors_of r_plugins ++ errors_of r_mirroring ++ errors_of r_quotas
        ++ errors_of r_profiling
        ++ extra_errors input (map fst Settings_fields) in
      match errors, r_general, r_cors, r_github, r_gitlab, r_azuread,
            r_sqlalchemy, r_session, r_local_store, r_s3, r_azure_blob,
            r_gcs, r_google, r_logging, r_users, r_worker, r_plugins,
            r_mirroring, r_quotas, r_profiling with
      | [], inl general, inl cors, inl github, inl gitlab, inl azuread,
        inl sqlalchemy, inl session, inl local_store, inl s3, inl azure_blob,
        inl gcs, inl google, inl logging, inl users, inl worker, inl plugins,
        inl mirroring, inl quotas, inl profiling =>
          inl {| general := general; cors := cors; github := github;
                 gitlab := gitlab; azuread := azuread;
                 sqlalchemy := sqlalchemy; session := session;
                 local_store := local_store; s3 := s3;
                 azure_blob := azure_blob; gcs := gcs; google := google;
                 logging := logging; users := users; worker := worker;
                 plugins := plugins; mirroring := mirroring;
                 quotas := quotas; profiling := profiling |}
      | _, _, _, _, _, _, _, _, _, _, _, _, _, _, _, _, _, _, _, _ =>
          inr (InitValidationError "Settings" errors)
      end
  end.

(** ** The module *)

Definition _filename : string := "config.toml".
Definition _env_prefix : string := "QUETZ_".
Definition _env_config_file : string := "CONFIG_FILE".
Definition PAGINATION_LIMIT : Z := 20.

(** What the import of the module evaluates once: the two directories given
    by [appdirs], the default instances of [Settings], and the default of
    the parameter [secret] of [create_config]. *)
Record Module : Type := {
  _site_dir : string;
  _user_dir : string;
  defaults : Defaults;
  create_config_secret : string
}.

(** The import, in an environment [env], with [appdirs] answering [site]
    and [user] and [token_bytes(32).hex()] answering [token]. *)
Definition import_module (L : Lib) (env : list (string * string))
    (site user token : string) : Module + InitError :=
  match Section_init L env SettingsGeneral [],
        Section_init L env SettingsLocalStore [],
        Section_init L env SettingsPlugins [],
        Section_init L env SettingsMirroring [] with
  | inl g, inl l, inl p, inl mi =>
      inl {| _site_dir := site; _user_dir := user;
             defaults := {| default_general := g; default_local_store := l;
                            default_plugins := p; default_mirroring := mi |};
             create_config_secret := token |}
  | inr e, _, _, _ | inl _, inr e, _, _ | inl _, inl _, inr e, _
  | inl _, inl _, inl _, inr e => inr e
  end.

(** ** [class Config] *)

(** An instance: [ident] is its identity, what [is] compares; [init] sets
    the one attribute [config]. *)
Record Config : Type := {
  ident : nat;
  config : Settings
}.

Definition _config_dirs (m : Module) : list string := [_site_dir m; _user_dir m].

Definition _config_files (m : Module) : list string :=
  map (fun d => path_join d _filename) (_config_dirs m).

(** The class attribute [_instances], a dictionary from [None] or a path to
    an instance, and the number of instances [__new__] has made so far:
    the next one gets that number as its identity. *)
Record ClassState : Type := {
  _instances : gmap (option string) Config;
  made : nat
}.

(** The class as its definition leaves it. *)
Definition initial_state : ClassState := {| _instances := ∅; made := 0 |}.

(** [Config.find_file] *)
Definition find_file (m : Module) (w : World) (deployment_config : option string)
  : option string :=
  let config_file_env := getenv w (_env_prefix ++ _env_config_file) in
  let deployment_config_files :=
    flat_map (fun f => if opt_truthy f
                       then match f with
                            | Some p => if isfile w p then [p] else []
                            | None => []
                            end
                       else [])
             [deployment_config; config_file_env] in
  List.find (isfile w) (_config_files m ++ deployment_config_files).

(** [Config._read_config] *)
Definition _read_config (L : Lib) (m : Module) (w : World) (filename : string)
  : Result Settings :=
  match toml_file w filename with
  | Unreadable err => Raise (OSError err)
  | Malformed e =>
      Raise (ConfigError ("failed to load config file '" ++ filename ++ "': " ++ e))
  | Parsed doc =>
      match Settings_init L (environ w) (defaults m) doc with
      | inl s => Ok s
      | inr e => raise_init e
      end
  end.

(** [Config.init] *)
Definition init (L : Lib) (m : Module) (w : World) (self : nat) (path : string)
  : Result Config :=
  let* c := (if str_truthy path then _read_config L m w path
             else match Settings_init L (environ w) (defaults m) [] with
                  | inl s => Ok s
                  | inr e => raise_init e
                  end) in
  Ok {| ident := self; config := c |}.

(** The path [Config.__new__] resolves: [abspath] of the located file, or
    the empty string when [find_file] returns [None] and [abspath] raises
    [TypeError]. *)
Definition resolved_path (m : Module) (w : World) (deployment_config : option string)
  : string :=
  match find_file m w deployment_config with
  | Some f => abspath w f
  | None => ""
  end.

(** [Config.__new__]: the instance returned, and the class afterwards. *)
Definition Config_new (L : Lib) (m : Module) (w : World) (cls : ClassState)
    (deployment_config : option string) : Result Config * ClassState :=
  match (if negb (opt_truthy deployment_config) then _instances cls !! None
         else None) with
  | Some o => (Ok o, cls)
  | None =>
      let path := resolved_path m w deployment_config in
      match _instances cls !! Some path with
      | Some o => (Ok o, cls)
      | None =>
          match init L m w (made cls) path with
          | Raise e => (Raise e, cls)
          | Ok c =>
              let instances := <[Some path := c]> (_instances cls) in
              (Ok c,
               {| _instances := if negb (opt_truthy deployment_config)
                                then <[None := c]> instances else instances;
                  made := S (made cls) |})
          end
      end
  end.

(** ** Attributes *)

(** The value of an attribute of a [Settings] instance: a section instance,
    or [None]. *)
Abbreviation Attr := (option SectionInst).

(** The other objects the module handles. *)
Inductive PyObj : Type :=
| PStr (s : string)
| PInt (z : Z)
| PBool (b : bool)
| PAttr (a : Attr)
| PItem (name : string) (v : Value)  (* a pair yielded by iterating a model *).

(** [bool(a)]: pydantic models define neither [__bool__] nor [__len__], so
    an instance is true; [None] is false. *)
Definition attr_truthy (a : Attr) : bool :=
  match a with
  | Some _ => true
  | None => false
  end.

Definition py_truthy (o : PyObj) : bool :=
  match o with
  | PStr s => str_truthy s
  | PInt z => negb (Z.eqb z 0)
  | PBool b => b
  | PAttr a => attr_truthy a
  | PItem _ _ => true
  end.

Definition type_of (a : Attr) : string :=
  match a with
  | Some i => inst_cls i
  | None => "NoneType"
  end.

(** The attributes of a [Settings] instance are its nineteen fields.  (The
    methods inherited from [BaseSettings] are left out; none of the names
    this module asks for is one of them.) *)
Definition Settings_dict (s : Settings) : list (string * Attr) :=
  [ ("general", Some (general s)); ("cors", cors s); ("github", github s);
    ("gitlab", gitlab s); ("azuread", azuread s);
    ("sqlalchemy", Some (sqlalchemy s)); ("session", Some (session s));
    ("local_store", Some (local_store s)); ("s3", s3 s);
    ("azure_blob", azure_blob s); ("gcs", gcs s); ("google", google s);
    ("logging", logging s); ("users", users s); ("worker", worker s);
    ("plugins", Some (plugins s)); ("mirroring", Some (mirroring s));
    ("quotas", quotas s); ("profiling", profiling s) ].

(** [getattr(settings, name)] *)
Definition Settings_getattr (s : Settings) (name : string) : Result Attr :=
  match dict_get name (Settings_dict s) with
  | Some a => Ok a
  | None => Raise (AttributeError "Settings" name)
  end.

(** [Config.__getattr__], which Python calls for a name that is neither
    [config] nor an attribute of the class. *)
Definition Config_getattr (self : Config) (name : string) : Result Attr :=
  Settings_getattr (config self) name.

(** [a(...)]: neither [None] nor a model instance is callable. *)
Definition call_attr (a : Attr) (args : list PyObj) : Result Attr :=
  Raise (TypeError ("'" ++ type_of a ++ "' object is not callable")).

(** [int(a)] *)
Definition int_attr (a : Attr) : Result PyObj :=
  Raise (TypeError ("int() argument must be a string, a bytes-like object or a real number, not '"
                    ++ type_of a ++ "'")).

(** [Config.configured_section] *)
Definition configured_section (self : Config) (section : string) : Result bool :=
  let* a := Settings_getattr (config self) section in
  Ok (attr_truthy a).

(** ** [Config.get_package_store] *)

(** The store constructed, with the dictionary it is given. *)
Inductive PackageStore : Type :=
| S3Store (cfg : list (string * PyObj))
| AzureBlobStore (cfg : list (string * PyObj))
| GoogleCloudStorageStore (cfg : list (string * PyObj))
| LocalStore (cfg : list (string * PyObj)).

(** [self.config.get(name)] *)
Definition config_get (self : Config) (name : string) : Result Attr :=
  let* get := Settings_getattr (config self) "get" in
  call_attr get [PStr name].

(** The body of [get_package_store], given what the three section tests
    [self.config.get(...)] evaluate to. *)
Definition package_store_of (get : string -> Result Attr) (self : Config)
  : Result PackageStore :=
  let* s3 := get "s3" in
  if attr_truthy s3 then
    let* key := Config_getattr self "s3_access_key" in
    let* secret := Config_getattr self "s3_secret_key" in
    let* url := Config_getattr self "s3_url" in
    let* region := Config_getattr self "s3_region" in
    let* bucket_prefix := Config_getattr self "s3_bucket_prefix" in
    let* bucket_suffix := Config_getattr self "s3_bucket_suffix" in
    Ok (S3Store [ ("key", PAttr key); ("secret", PAttr secret);
                  ("url", PAttr url); ("region", PAttr region);
                  ("bucket_prefix", PAttr bucket_prefix);
                  ("bucket_suffix", PAttr bucket_suffix) ])
  else
    let* azure_blob := get "azure_blob" in
    if attr_truthy azure_blob then
      let* account_name := Config_getattr self "azure_blob_account_name" in
      let* account_access_key := Config_getattr self "azure_blob_account_access_key" in
      let* conn_str := Config_getattr self "azure_blob_conn_str" in
      let* container_prefix := Config_getattr self "azure_blob_container_prefix" in
      let* container_suffix := Config_getattr self "azure_blob_container_suffix" in
      Ok (AzureBlobStore [ ("account_name", PAttr account_name);
                           ("account_access_key", PAttr account_access_key);
                           ("conn_str", PAttr conn_str);
                           ("container_prefix", PAttr container_prefix);
                           ("container_suffix", PAttr container_suffix) ])
    else
      let* gcs := get "gcs" in
      if attr_truthy gcs then
        let* project := Config_getattr self "gcs_project" in
        let* token := Config_getattr self "gcs_token" in
        let* bucket_prefix := Config_getattr self "gcs_bucket_prefix" in
        let* bucket_suffix := Config_getattr self "gcs_bucket_suffix" in
        let* cache_timeout := Config_getattr self "gcs_cache_timeout" in
        let* region := Config_getattr self "gcs_region" in
        Ok (GoogleCloudStorageStore
              [ ("project", PAttr project); ("token", PAttr token);
                ("bucket_prefix", PAttr bucket_prefix);
                ("bucket_suffix", PAttr bucket_suffix);
                ("cache_timeout", PAttr cache_timeout);
                ("region", PAttr region) ])
      else
        let* redirect_enabled := Config_getattr self "local_store_redirect_enabled" in
        let* redirect_endpoint := Config_getattr self "local_store_redirect_endpoint" in
        let* redirect_secret := Config_getattr self "local_store_redirect_secret" in
        let* expiration := Config_getattr self "local_store_redirect_expiration" in
        let* redirect_expiration := int_attr expiration in
        Ok (LocalStore [ ("channels_dir", PStr "channels");
                         ("redirect_enabled", PAttr redirect_enabled);
                         ("redirect_endpoint", PAttr redirect_endpoint);
                         ("redirect_secret", PAttr redirect_secret);
                         ("redirect_expiration", redirect_expiration) ]).

Definition get_package_store (self : Config) : Result PackageStore :=
  package_store_of (config_get self) self.

(** ** [create_config] *)

(** A parameter with a default: [None] stands for an omitted argument. *)
Definition arg {A : Type} (default : A) (a : option A) : A :=
  match a with
  | Some x => x
  | None => default
  end.

(** The default of [secret] is the value [token_bytes(32).hex()] had when
    the [def] statement was executed, kept in the module. *)
Definition create_config (L : Lib) (m : Module) (w : World)
    (client_id client_secret database_url secret https : option string)
  : Result string :=
  let client_id := arg "" client_id in
  let client_secret := arg "" client_secret in
  let database_url := arg "sqlite:///./quetz.sqlite" database_url in
  let secret := arg (create_config_secret m) secret in
  let https := arg "true" https in
  let* config := config_template w in
  str_format L config [client_id; client_secret; database_url; secret; https].

(** ** [get_logger_config] *)

(** [getattr(config, name)] for the argument of [get_logger_config] and
    [get_plugin_manager]: [None] or a [Config]. *)
Definition py_getattr (config : option Config) (name : string) : Result Attr :=
  match config with
  | Some c => Config_getattr c name
  | None => Raise (AttributeError "NoneType" name)
  end.

(** [o.upper()] *)
Definition str_upper (o : PyObj) : Result string :=
  match o with
  | PStr s => Ok (upper s)
  | PInt _ => Raise (AttributeError "int" "upper")
  | PBool _ => Raise (AttributeError "bool" "upper")
  | PAttr a => Raise (AttributeError (type_of a) "upper")
  | PItem _ _ => Raise (AttributeError "tuple" "upper")
  end.

Record LogConfig : Type := {
  version : Z;
  disable_existing_loggers : bool;
  formatters : list (string * list (string * PyObj));
  handlers : list (string * list (string * PyObj));
  loggers : list (string * (string * list string))  (* name: level, handlers *)
}.

Definition get_logger_config (w : World) (config : option Config)
    (logger_names : list string) : Result LogConfig :=
  let log_level :=
    match py_getattr config "logging_level" with
    | Ok a => PAttr a
    | Raise _ => PStr "INFO"
    end in
  let filename :=
    match py_getattr config "logging_file" with
    | Ok a => a
    | Raise _ => None
    end in
  let log_level :=
    match getenv w "QUETZ_LOG_LEVEL" with
    | Some v => PStr v
    | None => log_level
    end in
  let* log_level := str_upper log_level in
  let handler_names :=
    ["console"] ++ (if attr_truthy filename then ["file"] else []) in
  let LOG_FORMATTERS :=
    [ ("colour", [ ("()", PStr "quetz.config.colourized_formatter");
                   ("fmt", PStr "%(levelprefix)s [%(name)s] %(message)s");
                   ("use_colors", PBool true) ]);
      ("basic", [ ("format", PStr "%(levelprefix)s [%(name)s] %(message)s") ]);
      ("timestamp", [ ("format", PStr "%(asctime)s %(levelname)s %(name)s  %(message)s") ]) ] in
  let curdir := getcwd w in
  let LOG_HANDLERS :=
    [ ("console", [ ("class", PStr "logging.StreamHandler");
                    ("formatter", PStr "colour");
                    ("level", PStr log_level);
                    ("stream", PStr "ext://sys.stderr") ]);
      ("file", [ ("class", PStr "logging.FileHandler");
                 ("formatter", PStr "timestamp");
                 ("filename", if attr_truthy filename then PAttr filename
                              else PStr (path_join curdir "quetz.log"));
                 ("level", PStr log_level) ]) ] in
  let LOGGERS := map (fun k => (k, (log_level, handler_names))) logger_names in
  Ok {| version := 1;
        disable_existing_loggers := false;
        formatters := LOG_FORMATTERS;
        handlers := LOG_HANDLERS;
        loggers := LOGGERS |}.

(** The level a handler of the configuration is bound to. *)
Definition handler_level (c : LogConfig) (handler : string) : option PyObj :=
  match dict_get handler (handlers c) with
  | Some h => dict_get "level" h
  | None => None
  end.

(** ** [get_plugin_manager] *)

Record PluginManager : Type := {
  project_name : string;
  hookspecs : list string;
  registered : list string  (* the names of the plugins loaded *)
}.

(** [pm.load_setuptools_entrypoints(group quetz, name)]: every installed
    entry point of the group that is not registered yet and, when a name is
    given, is called that, is loaded and registered. *)
Definition load_setuptools_entrypoints (w : World) (pm : PluginManager)
    (name : option PyObj) : PluginManager :=
  fold_left
    (fun pm ep =>
       let wanted := match name with
                     | None => true
                     | Some (PStr n) => String.eqb ep n
                     | Some _ => false
                     end in
       if wanted && negb (mem ep (registered pm))
       then {| project_name := project_name pm; hookspecs := hookspecs pm;
               registered := registered pm ++ [ep] |}
       else pm)
    (entry_points w) pm.

(** [for name in a]: [None] is not iterable; a model yields its fields as
    pairs. *)
Definition iterate (a : Attr) : Result (list PyObj) :=
  match a with
  | Some i => Ok (map (fun kv => PItem (fst kv) (snd kv)) (inst_fields i))
  | None => Raise (TypeError "'NoneType' object is not iterable")
  end.

(** The plugin manager returned, and the class afterwards: with no argument
    the function calls [Config()].  A [Config] instance is true. *)
Definition get_plugin_manager (L : Lib) (m : Module) (w : World)
    (cls : ClassState) (config : option Config)
  : Result PluginManager * ClassState :=
  let resolved :=
    match config with
    | Some c => (Ok c, cls)
    | None => Config_new L m w cls None
    end in
  (let* config := fst resolved in
   let pm := {| project_name := "quetz"; hookspecs := ["quetz.hooks"];
                registered := [] |} in
   let* configured := configured_section config "plugins" in
   if configured then
     let* enabled := Config_getattr config "plugins_enabled" in
     let* names := iterate enabled in
     Ok (fold_left (fun pm name => load_setuptools_entrypoints w pm (Some name))
                   names pm)
   else Ok (load_setuptools_entrypoints w pm None),
   snd resolved).

(** ** Runs of the class *)

(** The class after a sequence of calls [Config(d)], each in its own world. *)
Fixpoint run (L : Lib) (m : Module) (calls : list (World * option string))
    (cls : ClassState) : ClassState :=
  match calls with
  | [] => cls
  | (w, d) :: calls' => run L m calls' (snd (Config_new L m w cls d))
  end.

(** The states of the class a process can be in. *)
Inductive reachable (L : Lib) (m : Module) : ClassState -> Prop :=
| reach_initial : reachable L m initial_state
| reach_call cls w d :
    reachable L m cls -> reachable L m (snd (Config_new L m w cls d)).



(** Every instance is registered under exactly one path, and whatever the
    registry holds is one of the instances made. *)
Definition one_instance_per_path (cls : ClassState) : Prop :=
  (forall p q c1 c2,
      _instances cls !! Some p = Some c1 ->
      _instances cls !! Some q = Some c2 ->
      ident c1 = ident c2 -> p = q)
  /\ (forall k c,
         _instances cls !! k = Some c ->
         ident c < made cls /\ exists p, _instances cls !! Some p = Some c)
  /\ (forall i, i < made cls ->
         exists p c, _instances cls !! Some p = Some c /\ ident c = i).

Definition opt_isfile (w : World) (f : option string) : bool :=
  match f with
  | Some p => isfile w p
  | None => false
  end.

(** The environment gives a value for the field [name] of [Settings]. *)
Definition env_supplies (w : World) (name : string) : bool :=
  match dict_get (lower (Settings_env_prefix ++ name)) (lowered_environ (environ w)) with
  | Some _ => true
  | None => false
  end.

(** [getattr(section, name)] *)
Definition Section_getattr (i : SectionInst) (name : string) : Result Value :=
  match dict_get name (inst_fields i) with
  | Some v => Ok v
  | None => Raise (AttributeError (inst_cls i) name)
  end.

(** Two worlds that differ at most in the content of the files other than
    the one [Config(d)] resolves to. *)
Definition agree_on_selected (m : Module) (w w' : World) (d : option string) : Prop :=
  environ w' = environ w
  /\ (forall p, isfile w' p = isfile w p)
  /\ (forall p, abspath w' p = abspath w p)
  /\ toml_file w' (resolved_path m w d) = toml_file w (resolved_path m w d).

(** ** A sample process

    Concrete libraries, module and worlds, on which the statements below
    are exercised. *)

(** [str.format] for a template whose only replacement fields are [{}]. *)
Fixpoint format_auto (template : string) (args : list string) : Result string :=
  match template with
  | EmptyString => Ok EmptyString
  | String "{" (String "}" rest) =>
      match args with
      | a :: args' => let* r := format_auto rest args' in Ok (a ++ r)%string
      | [] => Raise (IndexError "Replacement index out of range")
      end
  | String c rest => let* r := format_auto rest args in Ok (String c r)
  end.

(** A library that performs the two conversions the declared defaults need
    ([batch_size: int = 1e8] and [default_role: str | bool = False]) and
    refuses every other value that has not the declared type already. *)
Definition sample_lib : Lib :=
  {| json_loads := fun _ => None;
     coerce := fun t v =>
       match t, v with
       | TInt, VFloat f => if String.eqb f "1e8" then Some (VInt 100000000) else None
       | TStrOrBool, VBool b => Some (VStr (if b then "True" else "False"))
       | _, _ => None
       end;
     dict_of := fun _ => None;
     str_format := format_auto |}.

Definition sample_defaults : Defaults :=
  {| default_general :=
       {| inst_cls := "SettingsGeneral";
          inst_fields := [ ("package_unpack_threads", VInt 1);
                           ("frontend_dir", VStr "");
                           ("redirect_http_to_https", VBool false) ] |};
     default_local_store :=
       {| inst_cls := "SettingsLocalStore";
          inst_fields := [ ("redirect_enabled", VBool false);
                           ("redirect_endpoint", VStr "/files");
                           ("redirect_secret", VStr "");
                           ("redirect_expiration", VInt 3600) ] |};
     default_plugins :=
       {| inst_cls := "SettingsPlugins";
          inst_fields := [ ("enabled", VList []) ] |};
     default_mirroring :=
       {| inst_cls := "SettingsMirroring";
          inst_fields := [ ("batch_length", VInt 10);
                           ("batch_size", VInt 100000000);
                           ("num_parallel_downloads", VInt 10) ] |} |}.

Definition sample_site_dir : string := "/etc/xdg/quetz".
Definition sample_user_dir : string := "/home/quetz/.config/quetz".
Definition sample_site_file : string := "/etc/xdg/quetz/config.toml".
Definition sample_user_file : string := "/home/quetz/.config/quetz/config.toml".

Definition sample_module : Module :=
  {| _site_dir := sample_site_dir;
     _user_dir := sample_user_dir;
     defaults := sample_defaults;
     create_config_secret := "5f2b9c" |}.

(** A world given by its files and its environment; every path is taken to
    be absolute already. *)
Definition sample_world (files : list (string * FileOutcome))
    (env : list (string * string)) : World :=
  {| environ := env;
     isfile := fun p => match dict_get p files with Some _ => true | None => false end;
     abspath := fun p => p;
     getcwd := "/srv/quetz";
     toml_file := fun p => match dict_get p files with
                           | Some o => o
                           | None => Unreadable "No such file or directory"
                           end;
     config_template := Ok "[github]
client_id = '{}'
client_secret = '{}'
[sqlalchemy]
database_url = '{}'
[session]
secret = '{}'
https_only = {}";
     entry_points := ["quetz_runexports"; "quetz_conda_suggest"] |}.

(** A file that sets the two mandatory fields and nothing else. *)
Definition minimal_doc : Dict :=
  [ ("sqlalchemy", VDict [("database_url", VStr "sqlite:///./quetz.sqlite")]);
    ("session", VDict [("secret", VStr "0123abcd")]) ].

(** The same with a logging and a plugins section. *)
Definition logging_doc : Dict :=
  minimal_doc ++
  [ ("logging", VDict [("level", VStr "DEBUG")]);
    ("plugins", VDict [("enabled", VList [VStr "quetz_runexports"])]) ].

(** The settings [minimal_doc] resolves to, but for the two sections given. *)
Definition sample_settings (logging_section : option SectionInst)
    (plugins_section : SectionInst) : Settings :=
  {| general := default_general sample_defaults;
     cors := None; github := None; gitlab := None; azuread := None;
     sqlalchemy :=
       {| inst_cls := "SettingsSQLAlchemy";
          inst_fields := [ ("database_url", VStr "sqlite:///./quetz.sqlite");
                           ("database_plugin_path", VStr "");
                           ("echo_sql", VBool false);
                           ("postgres_pool_size", VInt 100);
                           ("postgres_max_overflow", VInt 100) ] |};
     session :=
       {| inst_cls := "SettingsSession";
          inst_fields := [ ("secret", VStr "0123abcd");
                           ("https_only", VBool true) ] |};
     local_store := default_local_store sample_defaults;
     s3 := None; azure_blob := None; gcs := None; google := None;
     logging := logging_section;
     users := None; worker := None;
     plugins := plugins_section;
     mirroring := default_mirroring sample_defaults;
     quotas := None; profiling := None |}.

Definition minimal_settings : Settings :=
  sample_settings None (default_plugins sample_defaults).

Definition debug_logging : SectionInst :=
  {| inst_cls := "SettingsLogging";
     inst_fields := [ ("level", VStr "DEBUG"); ("file", VStr "") ] |}.

Definition logging_settings : Settings :=
  sample_settings
    (Some debug_logging)
    {| inst_cls := "SettingsPlugins";
       inst_fields := [ ("enabled", VList [VStr "quetz_runexports"]) ] |}.

(** The world with one configuration file, at the site-wide location. *)
Definition site_world (doc : Dict) : World :=
  sample_world [(sample_site_file, Parsed doc)] [].

(** A file that sets the connection string, and an environment that sets
    it too, under the name the description derives and under the name
    pydantic derives; the plugin path is set by the environment only. *)
Definition override_doc : Dict :=
  [ ("sqlalchemy", VDict [("database_url", VStr "sqlite:///from-file.sqlite")]);
    ("session", VDict [("secret", VStr "0123abcd")]) ].

Definition override_env : list (string * string) :=
  [ ("QUETZ_SQLALCHEMY_DATABASE_URL", "postgresql://from-env");
    ("SQLALCHEMYDATABASE_URL", "postgresql://from-env");
    ("QUETZ_SQLALCHEMY_DATABASE_PLUGIN_PATH", "/ignored");
    ("SQLALCHEMYDATABASE_PLUGIN_PATH", "/from-env") ].

Definition override_world : World :=
  sample_world [(sample_site_file, Parsed override_doc)] override_env.

(** A world whose only file, at the user location, is not valid TOML. *)
Definition malformed_world : World :=
  sample_world [(sample_user_file, Malformed "Invalid date or number (line 3 column 1 char 27)")] [].


(** The level and the handlers [get_logger_config] binds everything to. *)
Definition effective_level (w : World) : string :=
  upper (match getenv w "QUETZ_LOG_LEVEL" with
         | Some v => v
         | None => "INFO"
         end).

(** Both the site-wide and the user-profile file exist; in the second world
    the user-profile file holds something else. *)
Definition both_world : World :=
  sample_world [ (sample_site_file, Parsed minimal_doc);
                 (sample_user_file, Parsed logging_doc) ] [].

Definition both_world_changed : World :=
  sample_world [ (sample_site_file, Parsed minimal_doc);
                 (sample_user_file, Malformed "Unbalanced quotes") ] [].

(** Nothing to locate, nothing in the environment. *)
Definition empty_world : World := sample_world [] [].

Definition minimal_config : Config := {| ident := 0; config := minimal_settings |}.

(** The class after the first call [Config()] in [site_world minimal_doc]. *)
Definition after_first_call : ClassState :=
  {| _instances := <[None := minimal_config]>
                     (<[Some sample_site_file := minimal_config]> ∅);
     made := 1 |}.

(** Later calls: another explicit path, in a world where the site-wide
    file has been rewritten. *)
Definition later_calls : list (World * option string) :=
  [ (site_world logging_doc, Some "/srv/quetz/dev.toml");
    (site_world logging_doc, None) ].


(** The fields of [Settings] whose type is a settings class, with that
    class: all but [worker]. *)
Definition Settings_sections : list (string * SectionClass) :=
  [ ("general", SettingsGeneral); ("cors", SettingsCORS);
    ("github", SettingsGitHub); ("gitlab", SettingsGitLab);
    ("azuread", SettingsAzureAD); ("sqlalchemy", SettingsSQLAlchemy);
    ("session", SettingsSession); ("local_store", SettingsLocalStore);
    ("s3", SettingsS3); ("azure_blob", SettingsAzureBlob); ("gcs", SettingsGCS);
    ("google", SettingsGoogle); ("logging", SettingsLogging);
    ("users", SettingsUsers); ("plugins", SettingsPlugins);
    ("mirroring", SettingsMirroring); ("quotas", SettingsQuotas);
    ("profiling", SettingsProfiling) ].


(** The value [x] validates against the type of [f], and the result is the
    attribute [f] of the instance [i]. *)
Definition stored_as (L : Lib) (i : SectionInst) (f : Field) (x : Value) : Prop :=
  exists v, validate_value L (ftype f) x = inl v
            /\ Section_getattr i (fname f) = Ok v.

(** Two explicit configuration files, and nothing at the site-wide or the
    user location. *)
Definition sample_file_a : string := "/srv/quetz/a.toml".
Definition sample_file_b : string := "/srv/quetz/b.toml".

Definition two_files_world : World :=
  sample_world [ (sample_file_a, Parsed minimal_doc);
                 (sample_file_b, Parsed logging_doc) ] [].

Definition logging_config : Config := {| ident := 1; config := logging_settings |}.

(** The class after [Config(sample_file_a)] in [two_files_world]. *)
Definition after_call_a : ClassState :=
  {| _instances := <[Some sample_file_a := minimal_config]> ∅; made := 1 |}.

(** What [override_world] resolves to. *)
Definition override_sqlalchemy : SectionInst :=
  {| inst_cls := "SettingsSQLAlchemy";
     inst_fields := [ ("database_url", VStr "sqlite:///from-file.sqlite");
                      ("database_plugin_path", VStr "/from-env");
                      ("echo_sql", VBool false);
                      ("postgres_pool_size", VInt 100);
                      ("postgres_max_overflow", VInt 100) ] |}.

Definition override_settings : Settings :=
  {| general := default_general sample_defaults;
     cors := None; github := None; gitlab := None; azuread := None;
     sqlalchemy := override_sqlalchemy;
     session := session minimal_settings;
     local_store := default_local_store sample_defaults;
     s3 := None; azure_blob := None; gcs := None; google := None;
     logging := None; users := None; worker := None;
     plugins := default_plugins sample_defaults;
     mirroring := default_mirroring sample_defaults;
     quotas := None; profiling := None |}.





(** ** Lemmas on dictionaries *)

Lemma dict_get_set_eq {A : Type} (k : string) (v : A) (d : list (string * A)) :
  dict_get k (dict_set k v d) = Some v.
Proof.
  induction d as [|[k' v'] d IH]; simpl.
  - now rewrite String.eqb_refl.
  - destruct (String.eqb k k') eqn:E; simpl.
    + now rewrite String.eqb_refl.
    + now rewrite E.
Qed.

Lemma dict_get_set_ne {A : Type} (k k' : string) (v : A) (d : list (string * A)) :
  String.eqb k k' = false ->
  dict_get k (dict_set k' v d) = dict_get k d.
Proof.
  intros Hne. induction d as [|[k0 v0] d IH]; simpl.
  - now rewrite Hne.
  - destruct (String.eqb k' k0) eqn:E; simpl.
    + apply String.eqb_eq in E. subst k0. now rewrite Hne.
    + now rewrite IH.
Qed.

Lemma dict_get_In {A : Type} (k : string) (v : A) (d : list (string * A)) :
  dict_get k d = Some v -> In (k, v) d.
Proof.
  induction d as [|[k' v'] d IH]; simpl; [discriminate|].
  destruct (String.eqb k k') eqn:E.
  - apply String.eqb_eq in E. intros H. inversion H. subst. now left.
  - intros H. right. auto.
Qed.

Lemma deep_update_nil (mapping : Dict) : deep_update mapping [] = mapping.
Proof. reflexivity. Qed.

Lemma deep_update_cons (mapping : Dict) (k : string) (v : Value) (u : Dict) :
  deep_update mapping ((k, v) :: u)
  = deep_update (dict_set k (match dict_get k mapping with
                             | Some o => deep_update_value o v
                             | None => v
                             end) mapping) u.
Proof. reflexivity. Qed.

Lemma deep_update_get_None (u mapping : Dict) (k : string) :
  dict_get k mapping = None -> dict_get k u = None ->
  dict_get k (deep_update mapping u) = None.
Proof.
  revert mapping. induction u as [|[k' v'] u IH]; intros mapping Hm Hu.
  - now rewrite deep_update_nil.
  - rewrite deep_update_cons. simpl in Hu.
    destruct (String.eqb k k') eqn:E; [discriminate|].
    apply IH; [|exact Hu]. now rewrite dict_get_set_ne.
Qed.

(** The environment source has no entry for a field whose variable is not
    set. *)
Lemma env_settings_get_None (L : Lib) (prefix : string) (fs : list (string * bool))
    (env_vars : list (string * string)) (d env_d : Dict) (name : string) :
  dict_get (lower (prefix ++ name)) env_vars = None ->
  dict_get name d = None ->
  env_settings L prefix fs env_vars d = inl env_d ->
  dict_get name env_d = None.
Proof.
  intros Hvar. revert d. induction fs as [|[n complex] fs IH]; intros d Hd H; simpl in H.
  - now inversion H; subst.
  - destruct (dict_get (lower (prefix ++ n)) env_vars) as [raw|] eqn:En.
    + assert (Hne : String.eqb name n = false).
      { destruct (String.eqb name n) eqn:E; [|reflexivity].
        apply String.eqb_eq in E. subst n. congruence. }
      destruct complex.
      * destruct (json_loads L raw); [|discriminate].
        eapply IH; [|exact H]. now rewrite dict_get_set_ne.
      * eapply IH; [|exact H]. now rewrite dict_get_set_ne.
    + eapply IH; eauto.
Qed.

Example deep_update_merges :
  deep_update [("a", VDict [("x", VInt 1); ("y", VInt 2)]); ("b", VInt 0)]
              [("a", VDict [("y", VInt 3)]); ("c", VInt 4)]
  = [("a", VDict [("x", VInt 1); ("y", VInt 3)]); ("b", VInt 0); ("c", VInt 4)].
Proof. reflexivity. Qed.

(** ** Locating the file *)


Lemma find_file_cases (m : Module) (w : World) (d : option string) :
  let site := path_join (_site_dir m) _filename in
  let user := path_join (_user_dir m) _filename in
  let env := getenv w "QUETZ_CONFIG_FILE" in
  find_file m w d =
    if isfile w site then Some site
    else if isfile w user then Some user
    else if opt_truthy d && opt_isfile w d then d
    else if opt_truthy env && opt_isfile w env then env
    else None.
Proof.
  intros site user env. unfold find_file.
  change (getenv w (_env_prefix ++ _env_config_file)) with env.
  change (_config_files m) with [site; user].
  simpl. destruct (isfile w site); [reflexivity|].
  destruct (isfile w user); [reflexivity|].
  destruct d as [p|], env as [q|]; simpl;
    repeat match goal with
           | |- context [str_truthy ?s] => destruct (str_truthy s); simpl
           | |- context [isfile w ?s] => destruct (isfile w s) eqn:?; simpl
           end; try reflexivity; try congruence.
Qed.

Lemma find_file_ext (m : Module) (w w' : World) (d : option string) :
  environ w' = environ w -> (forall p, isfile w' p = isfile w p) ->
  find_file m w' d = find_file m w d.
Proof.
  intros He Hf. rewrite !find_file_cases. unfold getenv. rewrite He.
  rewrite !Hf.
  replace (opt_isfile w' d) with (opt_isfile w d)
    by (destruct d; simpl; auto).
  replace (opt_isfile w' (dict_get "QUETZ_CONFIG_FILE" (environ w)))
    with (opt_isfile w (dict_get "QUETZ_CONFIG_FILE" (environ w)))
    by (destruct (dict_get "QUETZ_CONFIG_FILE" (environ w)); simpl; auto).
  reflexivity.
Qed.

Lemma Config_new_ext (L : Lib) (m : Module) (w w' : World) (cls : ClassState)
    (d : option string) :
  agree_on_selected m w w' d ->
  Config_new L m w' cls d = Config_new L m w cls d.
Proof.
  intros (He & Hf & Ha & Ht). unfold Config_new.
  assert (Hp : resolved_path m w' d = resolved_path m w d).
  { unfold resolved_path. rewrite (find_file_ext m w w' d He Hf).
    destruct (find_file m w d); auto. }
  rewrite Hp. unfold init, _read_config. rewrite Ht, He. reflexivity.
Qed.

(** C6: [find_file] returns the first candidate that is a regular file, in
    the order site-wide file, user-profile file, explicit path, path named
    by QUETZ_CONFIG_FILE (the last two only when non-empty), and [None]
    when there is none; with both the site-wide and the user-profile file
    present it is the site-wide one; and what [Config(d)] returns depends
    on the content of no other file than the one selected. *)
Theorem C6_find_file_first_existing (L : Lib) (m : Module) (w w' : World)
    (cls : ClassState) (d : option string) :
  agree_on_selected m w w' d ->
  let site := path_join (_site_dir m) _filename in
  let user := path_join (_user_dir m) _filename in
  let env := getenv w "QUETZ_CONFIG_FILE" in
  find_file m w d =
    (if isfile w site then Some site
     else if isfile w user then Some user
     else if opt_truthy d && opt_isfile w d then d
     else if opt_truthy env && opt_isfile w env then env
     else None)
  /\ (isfile w site = true -> isfile w user = true ->
      find_file m w d = Some site /\ resolved_path m w d = abspath w site)
  /\ Config_new L m w' cls d = Config_new L m w cls d.
Proof.
  intros Hagree site user env. split; [apply find_file_cases|]. split.
  - intros Hs _. unfold resolved_path. rewrite find_file_cases.
    fold site. rewrite Hs. auto.
  - now apply Config_new_ext.
Qed.

(** ** Loading *)






(** ** The registry *)

Lemma init_ident (L : Lib) (m : Module) (w : World) (self : nat) (path : string)
    (c : Config) :
  init L m w self path = Ok c -> ident c = self.
Proof.
  unfold init, bind. intros H.
  destruct (if str_truthy path then _ else _); inversion H; reflexivity.
Qed.

(** What a call does, in the three cases of [__new__]. *)
Lemma Config_new_cases (L : Lib) (m : Module) (w : World) (cls : ClassState)
    (d : option string) :
  let p := resolved_path m w d in
  (exists c, opt_truthy d = false /\ _instances cls !! None = Some c
             /\ Config_new L m w cls d = (Ok c, cls))
  \/ (exists c, (opt_truthy d = false -> _instances cls !! None = None)
                /\ _instances cls !! Some p = Some c
                /\ Config_new L m w cls d = (Ok c, cls))
  \/ (exists e, (opt_truthy d = false -> _instances cls !! None = None)
                /\ _instances cls !! Some p = None
                /\ init L m w (made cls) p = Raise e
                /\ Config_new L m w cls d = (Raise e, cls))
  \/ (exists c, (opt_truthy d = false -> _instances cls !! None = None)
                /\ _instances cls !! Some p = None
                /\ init L m w (made cls) p = Ok c
                /\ Config_new L m w cls d =
                     (Ok c, {| _instances :=
                                 if negb (opt_truthy d)
                                 then <[None := c]> (<[Some p := c]> (_instances cls))
                                 else <[Some p := c]> (_instances cls);
                               made := S (made cls) |})).
Proof.
  intros p. unfold Config_new. fold p.
  destruct (opt_truthy d) eqn:Hd; simpl.
  - right. destruct (_instances cls !! Some p) as [c|] eqn:Hp.
    + left. exists c. repeat split; auto. discriminate.
    + right. destruct (init L m w (made cls) p) as [c|e] eqn:Hi.
      * right. exists c. repeat split; auto. discriminate.
      * left. exists e. repeat split; auto. discriminate.
  - destruct (_instances cls !! None) as [c0|] eqn:Hn.
    + left. exists c0. auto.
    + right. destruct (_instances cls !! Some p) as [c|] eqn:Hp.
      * left. exists c. auto.
      * right. destruct (init L m w (made cls) p) as [c|e] eqn:Hi.
        -- right. exists c. auto.
        -- left. exists e. auto.
Qed.

(** An entry of the registry is never replaced. *)
Lemma Config_new_keeps (L : Lib) (m : Module) (w : World) (cls : ClassState)
    (d : option string) (k : option string) (c : Config) :
  _instances cls !! k = Some c ->
  _instances (snd (Config_new L m w cls d)) !! k = Some c.
Proof.
  intros Hk.
  destruct (Config_new_cases L m w cls d)
    as [(c0 & _ & _ & ->)|[(c0 & _ & _ & ->)|[(e & _ & _ & _ & ->)|(c0 & Hn & Hp & _ & ->)]]];
    simpl; auto.
  assert (Some (resolved_path m w d) <> k) by congruence.
  destruct (opt_truthy d) eqn:Hd; simpl.
  - now rewrite lookup_insert_ne.
  - assert (None <> k) by (specialize (Hn eq_refl); congruence).
    now rewrite !lookup_insert_ne.
Qed.







Lemma one_instance_initial : one_instance_per_path initial_state.
Proof.
  unfold one_instance_per_path, initial_state; simpl. split; [|split].
  - intros p q c1 c2 H. now rewrite lookup_empty in H.
  - intros k c H. now rewrite lookup_empty in H.
  - intros i Hi. lia.
Qed.

Lemma one_instance_step (L : Lib) (m : Module) (w : World) (cls : ClassState)
    (d : option string) :
  one_instance_per_path cls ->
  one_instance_per_path (snd (Config_new L m w cls d)).
Proof.
  intros (Hinj & Hreg & Hall).
  destruct (Config_new_cases L m w cls d)
    as [(c0 & _ & _ & ->)|[(c0 & _ & _ & ->)|[(e & _ & _ & _ & ->)|(c0 & Hn & Hp & Hi & ->)]]];
    simpl; try exact (conj Hinj (conj Hreg Hall)).
  apply init_ident in Hi.
  set (p := resolved_path m w d) in *.
  set (reg' := if negb (opt_truthy d)
               then <[None := c0]> (<[Some p := c0]> (_instances cls))
               else <[Some p := c0]> (_instances cls)).
  assert (Hsome : forall q, reg' !! Some q
                            = if decide (p = q) then Some c0 else _instances cls !! Some q).
  { intros q. unfold reg'. destruct (negb (opt_truthy d)).
    - rewrite lookup_insert_ne by discriminate. rewrite lookup_insert.
      destruct (decide (p = q)), (decide (Some p = Some q)); congruence.
    - rewrite lookup_insert.
      destruct (decide (p = q)), (decide (Some p = Some q)); congruence. }
  assert (Hnone : forall c, reg' !! None = Some c -> c = c0 \/ _instances cls !! None = Some c).
  { intros c. unfold reg'. destruct (negb (opt_truthy d)).
    - rewrite lookup_insert_eq. left. congruence.
    - rewrite lookup_insert_ne by discriminate. auto. }
  assert (Hc0 : reg' !! Some p = Some c0).
  { rewrite Hsome. destruct (decide (p = p)); congruence. }
  assert (Hold : forall c, (exists q, _instances cls !! Some q = Some c) ->
                           exists q, reg' !! Some q = Some c).
  { intros c [q Hq]. exists q. rewrite Hsome.
    destruct (decide (p = q)); [subst; congruence|exact Hq]. }
  unfold one_instance_per_path. simpl. fold reg'. split; [|split].
  - intros q1 q2 c1 c2. rewrite !Hsome.
    destruct (decide (p = q1)), (decide (p = q2)); intros H1 H2 Hid; try congruence.
    + inversion H1; subst c1. apply Hreg in H2. lia.
    + inversion H2; subst c2. apply Hreg in H1. lia.
    + eapply Hinj; eauto.
  - intros k c H.
    assert (Hc : c = c0 \/ _instances cls !! k = Some c).
    { destruct k as [q|]; [|now apply Hnone].
      rewrite Hsome in H. destruct (decide (p = q)); [left; congruence|now right]. }
    destruct Hc as [->|Hc].
    + split; [lia|eauto].
    + destruct (Hreg k c Hc) as [Hlt Hex]. split; [lia|now apply Hold].
  - intros i Hlt. destruct (decide (i = made cls)) as [->|Hne].
    + exists p, c0. split; [exact Hc0|exact Hi].
    + destruct (Hall i) as (q & c & Hq & Hid); [lia|].
      exists q, c. split; [|exact Hid]. rewrite Hsome.
      destruct (decide (p = q)); [subst; congruence|exact Hq].
Qed.

Lemma one_instance_reachable (L : Lib) (m : Module) (cls : ClassState) :
  reachable L m cls -> one_instance_per_path cls.
Proof.
  induction 1; [apply one_instance_initial|now apply one_instance_step].
Qed.

Lemma reachable_run (L : Lib) (m : Module) (calls : list (World * option string))
    (cls : ClassState) :
  reachable L m cls -> reachable L m (run L m calls cls).
Proof.
  revert cls. induction calls as [|[w d] calls IH]; intros cls H; simpl; auto.
  apply IH. now constructor.
Qed.


(** ** The model on the sample process *)

Example import_sample_module :
  import_module sample_lib [] sample_site_dir sample_user_dir "5f2b9c"
  = inl sample_module.
Proof. vm_compute. reflexivity. Qed.

Example read_minimal :
  _read_config sample_lib sample_module (site_world minimal_doc) sample_site_file
  = Ok minimal_settings.
Proof. vm_compute. reflexivity. Qed.

Example read_logging :
  _read_config sample_lib sample_module (site_world logging_doc) sample_site_file
  = Ok logging_settings.
Proof. vm_compute. reflexivity. Qed.

Example read_unknown_section :
  _read_config sample_lib sample_module
    (site_world (minimal_doc ++ [("zzz", VInt 1); ("worker", VDict [])]))
    sample_site_file
  = Raise (ValidationError "Settings"
             [ (["worker"], EArbitraryType "SettingsWorker"); (["zzz"], EExtra) ]).
Proof. vm_compute. reflexivity. Qed.

Example read_missing_secret :
  _read_config sample_lib sample_module
    (site_world [("sqlalchemy", VDict [("database_url", VStr "sqlite://")]);
                 ("session", VDict [("https_only", VBool false)])])
    sample_site_file
  = Raise (ValidationError "Settings" [ (["session"; "secret"], EMissing) ]).
Proof. vm_compute. reflexivity. Qed.

Example first_call_registers :
  exists c cls,
    Config_new sample_lib sample_module (site_world minimal_doc) initial_state None
    = (Ok c, cls)
    /\ ident c = 0 /\ config c = minimal_settings
    /\ _instances cls !! None = Some c
    /\ _instances cls !! Some sample_site_file = Some c
    /\ made cls = 1.
Proof. do 2 eexists. split; [vm_compute; reflexivity|]. vm_compute. auto. Qed.

Example create_config_sample :
  create_config sample_lib sample_module (site_world minimal_doc)
    (Some "id") None None None None
  = Ok "[github]
client_id = 'id'
client_secret = ''
[sqlalchemy]
database_url = 'sqlite:///./quetz.sqlite'
[session]
secret = '5f2b9c'
https_only = true".
Proof. vm_compute. reflexivity. Qed.

(** ** Initialiser arguments go before the environment *)

Lemma deep_update_value_scalar (old v : Value) :
  is_dict v = false -> deep_update_value old v = v.
Proof. destruct v; simpl; intros H; try reflexivity; discriminate. Qed.

Lemma deep_update_get_other (u mapping : Dict) (k : string) :
  dict_get k u = None ->
  dict_get k (deep_update mapping u) = dict_get k mapping.
Proof.
  revert mapping. induction u as [|[k' v'] u IH]; intros mapping Hu.
  - now rewrite deep_update_nil.
  - rewrite deep_update_cons. simpl in Hu.
    destruct (String.eqb k k') eqn:E; [discriminate|].
    rewrite IH by exact Hu. now apply dict_get_set_ne.
Qed.

(** A key of the updating dictionary whose value is no dictionary: that
    value is the result, whatever the mapping held. *)
Lemma deep_update_get_scalar (u mapping : Dict) (k : string) (v : Value) :
  List.NoDup (dict_keys u) ->
  dict_get k u = Some v -> is_dict v = false ->
  dict_get k (deep_update mapping u) = Some v.
Proof.
  revert mapping. induction u as [|[k' v'] u IH]; intros mapping Hnd Hu Hv.
  - discriminate.
  - rewrite deep_update_cons. simpl in Hu. inversion Hnd as [|? ? Hnotin Hnd']; subst.
    destruct (String.eqb k k') eqn:E.
    + apply String.eqb_eq in E. subst k'. inversion Hu; subst v'.
      rewrite deep_update_get_other.
      * rewrite dict_get_set_eq.
        destruct (dict_get k mapping); [now rewrite deep_update_value_scalar|reflexivity].
      * destruct (dict_get k u) as [x|] eqn:Hx; [|reflexivity].
        exfalso. apply Hnotin. apply dict_get_In in Hx.
        change k with (fst (k, x)). now apply in_map.
    + now apply IH.
Qed.

Lemma validate_fields_errors (L : Lib) (input : Dict) (fs : list Field) (f : Field) :
  In f fs -> snd (validate_fields L input fs) = [] ->
  exists v, validate_field L input f = inl v.
Proof.
  induction fs as [|g fs IH]; simpl; [tauto|].
  destruct (validate_fields L input fs) as [vals errs] eqn:E.
  intros [->|Hin] Herr.
  - destruct (validate_field L input f); [eauto|discriminate].
  - destruct (validate_field L input g); simpl in Herr; [auto|discriminate].
Qed.

Lemma validate_fields_get (L : Lib) (input : Dict) (fs : list Field) (f : Field)
    (v : Value) :
  List.NoDup (map fname fs) -> In f fs ->
  snd (validate_fields L input fs) = [] ->
  validate_field L input f = inl v ->
  dict_get (fname f) (fst (validate_fields L input fs)) = Some v.
Proof.
  induction fs as [|g fs IH]; simpl; [tauto|].
  destruct (validate_fields L input fs) as [vals errs] eqn:E.
  intros Hnd [->|Hin] Herr Hv; inversion Hnd as [|? ? Hnotin Hnd']; subst.
  - rewrite Hv. simpl. now rewrite String.eqb_refl.
  - destruct (validate_field L input g) as [vg|eg]; simpl in Herr; [|discriminate].
    simpl. destruct (String.eqb (fname f) (fname g)) eqn:Eq.
    + apply String.eqb_eq in Eq. exfalso. apply Hnotin. rewrite <- Eq.
      now apply in_map.
    + now apply IH.
Qed.

(** For every section class, field and environment: a value the
    initialiser gives for the field (and the file is what the initialiser
    is given) is the one validated and stored; the variable of the field
    is not looked at. *)
Lemma Section_init_argument_wins (L : Lib) (env : list (string * string))
    (c : SectionClass) (kwargs : Dict) (i : SectionInst) (f : Field) (v : Value) :
  Section_init L env c kwargs = inl i ->
  List.NoDup (dict_keys kwargs) -> List.NoDup (map fname (fields c)) ->
  In f (fields c) ->
  dict_get (fname f) kwargs = Some v -> is_dict v = false ->
  exists v', validate_value L (ftype f) v = inl v'
             /\ Section_getattr i (fname f) = Ok v'.
Proof.
  unfold Section_init. intros Hinit Hk Hf Hin Hget Hv.
  destruct (env_settings L (env_prefix c) _ (lowered_environ env) []) as [env_d|n];
    [|discriminate].
  set (input := build_values env_d kwargs) in *.
  assert (Hinput : dict_get (fname f) input = Some v)
    by (unfold input, build_values; now apply deep_update_get_scalar).
  destruct (validate_fields L input (fields c)) as [vals errs] eqn:E.
  destruct errs as [|e errs]; [|discriminate].
  simpl in Hinit.
  destruct (extra_errors input (map fname (fields c))); [|discriminate].
  inversion Hinit; subst i; clear Hinit.
  assert (Herrs : snd (validate_fields L input (fields c)) = []) by now rewrite E.
  destruct (validate_fields_errors L input (fields c) f Hin Herrs) as [v' Hv'].
  exists v'. split.
  - unfold validate_field in Hv'. now rewrite Hinput in Hv'.
  - unfold Section_getattr. simpl.
    pose proof (validate_fields_get L input (fields c) f v' Hf Hin Herrs Hv') as Hg.
    rewrite E in Hg. simpl in Hg. now rewrite Hg.
Qed.

(** ** Precedence of the sources of a field *)

(** C2 (the code departs from it): at a file that sets
    [sqlalchemy.database_url] while the environment sets the variable of
    that field -- under the derived name QUETZ_SQLALCHEMY_DATABASE_URL and
    under pydantic's name SQLALCHEMYDATABASE_URL -- the resolved field is
    the value of the file, not that of the environment.  The environment
    is consulted for a field the file leaves out, under pydantic's name
    only, and then goes before the default. *)
Theorem C2_file_value_beats_environment (L : Lib) (m : Module) :
  exists s,
    _read_config L m override_world sample_site_file = Ok s
    /\ getenv override_world "QUETZ_SQLALCHEMY_DATABASE_URL" = Some "postgresql://from-env"
    /\ getenv override_world "SQLALCHEMYDATABASE_URL" = Some "postgresql://from-env"
    /\ Section_getattr (sqlalchemy s) "database_url" = Ok (VStr "sqlite:///from-file.sqlite")
    /\ Section_getattr (sqlalchemy s) "database_plugin_path" = Ok (VStr "/from-env")
    /\ Section_getattr (sqlalchemy s) "postgres_pool_size" = Ok (VInt 100).
Proof.
  eexists. split; [vm_compute; reflexivity|]. vm_compute. auto 6.
Qed.

(** ** The storage backend *)

Lemma flattened_name_missing (self : Config) (name : string) :
  dict_get name (Settings_dict (config self)) = None ->
  Config_getattr self name = Raise (AttributeError "Settings" name).
Proof.
  intros H. unfold Config_getattr, Settings_getattr. now rewrite H.
Qed.

(** Whatever the three section tests evaluate to, the accessors of the
    selected branch fail: the settings have no attribute of a flattened
    name. *)
Lemma package_store_of_raises (get : string -> Result Attr) (self : Config) :
  exists e, package_store_of get self = Raise e.
Proof.
  unfold package_store_of.
  destruct (get "s3") as [[i|]|e]; simpl; eauto.
  destruct (get "azure_blob") as [[i|]|e]; simpl; eauto.
  destruct (get "gcs") as [[i|]|e]; simpl; eauto.
Qed.

(** C3 (the code departs from it): for every instance,
    [get_package_store] raises [AttributeError] at its first test,
    [self.config.get], and returns no descriptor; and whatever value the
    three tests were given, the accessors of the branch selected would
    raise too. *)
Theorem C3_get_package_store_raises (self : Config) :
  get_package_store self = Raise (AttributeError "Settings" "get")
  /\ forall get : string -> Result Attr,
       exists e, package_store_of get self = Raise e.
Proof.
  split; [reflexivity|]. intros get. apply package_store_of_raises.
Qed.

Example package_store_minimal :
  get_package_store {| ident := 0; config := minimal_settings |}
  = Raise (AttributeError "Settings" "get").
Proof. reflexivity. Qed.

(** ** The logging configuration *)

(** An instance has no attribute of a flattened name, [None] has none at
    all: [hasattr(config, name)] is false. *)
Lemma py_getattr_flattened (config : option Config) (name : string) :
  (forall s, dict_get name (Settings_dict s) = None) ->
  exists e, py_getattr config name = Raise e.
Proof.
  intros H. destruct config as [c|]; simpl; [|eauto].
  unfold Config_getattr, Settings_getattr. rewrite H. eauto.
Qed.

(** C7 (the code departs from it): for every argument, [None] or an
    instance with or without a logging section, the level of both
    handlers and of every logger is the value of QUETZ_LOG_LEVEL
    uppercased when it is set and INFO otherwise; the level of the logging
    section is never read, and the file handler is never enabled. *)
Theorem C7_logging_section_level_is_ignored (w : World) (config : option Config)
    (logger_names : list string) :
  exists cfg,
    get_logger_config w config logger_names = Ok cfg
    /\ handler_level cfg "console" = Some (PStr (effective_level w))
    /\ handler_level cfg "file" = Some (PStr (effective_level w))
    /\ loggers cfg = map (fun k => (k, (effective_level w, ["console"]))) logger_names.
Proof.
  unfold get_logger_config, effective_level.
  destruct (py_getattr_flattened config "logging_level") as [e1 ->];
    [reflexivity|].
  destruct (py_getattr_flattened config "logging_file") as [e2 ->];
    [reflexivity|].
  destruct (getenv w "QUETZ_LOG_LEVEL") as [v|]; simpl.
  - eexists. repeat split.
  - eexists. repeat split.
Qed.

(** The failing input: the logging section says DEBUG, the result INFO. *)
Example logger_config_debug_section :
  Section_getattr debug_logging "level" = Ok (VStr "DEBUG")
  /\ logging logging_settings = Some debug_logging
  /\ exists cfg,
       get_logger_config (site_world logging_doc)
         (Some {| ident := 0; config := logging_settings |}) ["quetz"] = Ok cfg
       /\ handler_level cfg "console" = Some (PStr "INFO")
       /\ loggers cfg = [("quetz", ("INFO", ["console"]))].
Proof. repeat split. eexists. repeat split. Qed.

(** The part that holds: a set override is the level, uppercased. *)
Example logger_config_override :
  exists cfg,
    get_logger_config (sample_world [] [("QUETZ_LOG_LEVEL", "debug")]) None ["quetz"]
    = Ok cfg
    /\ handler_level cfg "console" = Some (PStr "DEBUG").
Proof. eexists. repeat split. Qed.

(** ** Sections configured, and the plugin manager *)



(** C8 (the code departs from it): [configured_section] is true of
    [plugins] for every instance, so the branch that loads every entry
    point is never taken; and the other branch reads [plugins_enabled],
    which the settings do not have.  Given an instance the function raises
    [AttributeError]; given none it raises that or what [Config()] raises.
    No plugin manager is returned. *)
Theorem C8_get_plugin_manager_raises (L : Lib) (m : Module) (w : World)
    (cls : ClassState) :
  (forall self : Config,
      configured_section self "plugins" = Ok true
      /\ get_plugin_manager L m w cls (Some self)
         = (Raise (AttributeError "Settings" "plugins_enabled"), cls))
  /\ forall config : option Config,
       exists e, fst (get_plugin_manager L m w cls config) = Raise e.
Proof.
  assert (Hself : forall self cls',
             get_plugin_manager L m w cls' (Some self)
             = (Raise (AttributeError "Settings" "plugins_enabled"), cls'))
    by reflexivity.
  split; [intros self; split; [reflexivity|apply Hself]|].
  intros [self|]; [rewrite Hself; simpl; eauto|].
  unfold get_plugin_manager.
  destruct (Config_new L m w cls None) as [[c|e] cls']; simpl; eauto.
Qed.

(** The failing input: a file with no plugins section, two entry points
    installed. *)
Example plugin_manager_default_section :
  entry_points (site_world minimal_doc) = ["quetz_runexports"; "quetz_conda_suggest"]
  /\ fst (get_plugin_manager sample_lib sample_module (site_world minimal_doc)
            initial_state None)
     = Raise (AttributeError "Settings" "plugins_enabled").
Proof. split; vm_compute; reflexivity. Qed.

(** ** The default secret of [create_config] *)

Lemma import_module_secret (L : Lib) (env : list (string * string))
    (site user token : string) (m : Module) :
  import_module L env site user token = inl m ->
  create_config_secret m = token.
Proof.
  unfold import_module. intros H.
  destruct (Section_init L env SettingsGeneral []); [|discriminate].
  destruct (Section_init L env SettingsLocalStore []); [|discriminate].
  destruct (Section_init L env SettingsPlugins []); [|discriminate].
  destruct (Section_init L env SettingsMirroring []); [|discriminate].
  now inversion H.
Qed.

(** C9: in a process that imported the module while
    [token_bytes(32).hex()] answered [token], two calls of [create_config]
    that omit [secret], whatever their other arguments and whatever the
    template holds by then, both format their text with [token]: the
    default is the value of the import, not one made for the call. *)
Theorem C9_default_secret_is_fixed (L : Lib) (env : list (string * string))
    (site user token : string) (m : Module) (w1 w2 : World)
    (client_id1 client_secret1 database_url1 https1 : option string)
    (client_id2 client_secret2 database_url2 https2 : option string) :
  import_module L env site user token = inl m ->
  create_config L m w1 client_id1 client_secret1 database_url1 None https1
  = (let* config := config_template w1 in
     str_format L config [ arg "" client_id1; arg "" client_secret1;
                           arg "sqlite:///./quetz.sqlite" database_url1;
                           token; arg "true" https1 ])
  /\ create_config L m w2 client_id2 client_secret2 database_url2 None https2
     = (let* config := config_template w2 in
        str_format L config [ arg "" client_id2; arg "" client_secret2;
                              arg "sqlite:///./quetz.sqlite" database_url2;
                              token; arg "true" https2 ]).
Proof.
  intros Himport. apply import_module_secret in Himport.
  unfold create_config. cbn [arg]. rewrite Himport. split; reflexivity.
Qed.

(** ** The statements at the sample process *)





Lemma both_worlds_agree :
  agree_on_selected sample_module both_world both_world_changed None.
Proof.
  repeat split.
  intros p. unfold both_world, both_world_changed, sample_world; simpl.
  destruct (String.eqb p sample_site_file), (String.eqb p sample_user_file);
    reflexivity.
Qed.

Lemma C6_find_file_first_existing_witness :
  find_file sample_module both_world None = Some sample_site_file
  /\ Config_new sample_lib sample_module both_world_changed initial_state None
     = Config_new sample_lib sample_module both_world initial_state None.
Proof.
  pose proof (C6_find_file_first_existing sample_lib sample_module both_world
                both_world_changed initial_state None both_worlds_agree) as H.
  cbv zeta in H. destruct H as (_ & Hsite & Hsame).
  split; [|exact Hsame].
  apply Hsite; reflexivity.
Defined.


Lemma C9_default_secret_is_fixed_witness :
  create_config sample_lib sample_module (site_world minimal_doc)
    (Some "id") None None None None
  = format_auto "[github]
client_id = '{}'
client_secret = '{}'
[sqlalchemy]
database_url = '{}'
[session]
secret = '{}'
https_only = {}" ["id"; ""; "sqlite:///./quetz.sqlite"; "5f2b9c"; "true"]
  /\ create_config sample_lib sample_module empty_world
       None None (Some "postgresql://db") None (Some "false")
     = format_auto "[github]
client_id = '{}'
client_secret = '{}'
[sqlalchemy]
database_url = '{}'
[session]
secret = '{}'
https_only = {}" [""; ""; "postgresql://db"; "5f2b9c"; "false"].
Proof.
  apply (C9_default_secret_is_fixed sample_lib [] sample_site_dir sample_user_dir
           "5f2b9c" sample_module (site_world minimal_doc) empty_world
           (Some "id") None None None None None (Some "postgresql://db") (Some "false")).
  vm_compute. reflexivity.
Defined.

(** ** More on dictionaries and on the sources *)

Lemma dict_get_None_keys {A : Type} (k : string) (d : list (string * A)) :
  dict_get k d = None <-> ~ In k (dict_keys d).
Proof.
  induction d as [|[k' v'] d IH]; simpl; [tauto|].
  destruct (String.eqb_spec k k') as [->|Hne].
  - split; [discriminate|]. intros H. exfalso. apply H. now left.
  - rewrite IH. split; [intros H [E|Hin]; [congruence|tauto]|tauto].
Qed.



(** The value under a key of the updating dictionary. *)
Lemma deep_update_get_hit (u mapping : Dict) (k : string) (v : Value) :
  List.NoDup (dict_keys u) -> dict_get k u = Some v ->
  dict_get k (deep_update mapping u)
  = Some (match dict_get k mapping with
          | Some o => deep_update_value o v
          | None => v
          end).
Proof.
  revert mapping. induction u as [|[k' v'] u IH]; intros mapping Hnd Hu.
  - discriminate.
  - rewrite deep_update_cons. simpl in Hu. inversion Hnd as [|? ? Hnotin Hnd']; subst.
    destruct (String.eqb k k') eqn:E.
    + apply String.eqb_eq in E. subst k'. inversion Hu; subst v'.
      rewrite deep_update_get_other; [now rewrite dict_get_set_eq|].
      now apply dict_get_None_keys.
    + rewrite (IH _ Hnd' Hu). now rewrite dict_get_set_ne.
Qed.




(** The input of a model under a key the environment source has not: what
    the initialiser gives. *)
Lemma build_values_init_only (env_d kwargs : Dict) (k : string) :
  List.NoDup (dict_keys kwargs) -> dict_get k env_d = None ->
  dict_get k (build_values env_d kwargs) = dict_get k kwargs.
Proof.
  intros Hnd Henv. unfold build_values.
  assert (Hbase : dict_get k (deep_update [] env_d) = None)
    by now apply deep_update_get_None.
  destruct (dict_get k kwargs) as [v|] eqn:Hk.
  - rewrite (deep_update_get_hit kwargs _ k v Hnd Hk). now rewrite Hbase.
  - rewrite deep_update_get_other by exact Hk. exact Hbase.
Qed.


(** ** What a constructed [Settings] holds *)

(** One step in taking the result of [Settings_init] apart: the field
    validated is an error, and so is the result, or it is a value. *)
Ltac settings_field r :=
  destruct r as [?v|?errs] eqn:?;
  [ cbv beta iota
  | let H := fresh in
    intros H; exfalso; revert H;
    match goal with
    | |- match ?e with _ => _ end = _ -> _ => destruct e; cbv beta iota; discriminate
    end ].

(** A successful construction: every field of the result is what the
    validation of that field gave, and the input had no key that names no
    field. *)
Lemma Settings_init_inv (L : Lib) (env : list (string * string)) (dflt : Defaults)
    (kwargs : Dict) (s : Settings) :
  Settings_init L env dflt kwargs = inl s ->
  exists env_d,
    env_settings L Settings_env_prefix Settings_fields (lowered_environ env) [] = inl env_d
    /\ let input := build_values env_d kwargs in
       defaulted_section L env SettingsGeneral "general" input (default_general dflt) = inl (general s)
       /\ optional_section L env SettingsCORS "cors" input = inl (cors s)
       /\ optional_section L env SettingsGitHub "github" input = inl (github s)
       /\ optional_section L env SettingsGitLab "gitlab" input = inl (gitlab s)
       /\ optional_section L env SettingsAzureAD "azuread" input = inl (azuread s)
       /\ required_section L env SettingsSQLAlchemy "sqlalchemy" input = inl (sqlalchemy s)
       /\ required_section L env SettingsSession "session" input = inl (session s)
       /\ defaulted_section L env SettingsLocalStore "local_store" input (default_local_store dflt) = inl (local_store s)
       /\ optional_section L env SettingsS3 "s3" input = inl (s3 s)
       /\ optional_section L env SettingsAzureBlob "azure_blob" input = inl (azure_blob s)
       /\ optional_section L env SettingsGCS "gcs" input = inl (gcs s)
       /\ optional_section L env SettingsGoogle "google" input = inl (google s)
       /\ optional_section L env SettingsLogging "logging" input = inl (logging s)
       /\ optional_section L env SettingsUsers "users" input = inl (users s)
       /\ optional_instance SettingsWorker "worker" input = inl (worker s)
       /\ defaulted_section L env SettingsPlugins "plugins" input (default_plugins dflt) = inl (plugins s)
       /\ defaulted_section L env SettingsMirroring "mirroring" input (default_mirroring dflt) = inl (mirroring s)
       /\ optional_section L env SettingsQuotas "quotas" input = inl (quotas s)
       /\ optional_section L env SettingsProfiling "profiling" input = inl (profiling s)
       /\ extra_errors input (map fst Settings_fields) = [].
Proof.
  unfold Settings_init.
  destruct (env_settings L Settings_env_prefix Settings_fields (lowered_environ env) [])
    as [env_d|n]; [|discriminate].
  intros H. exists env_d. split; [reflexivity|]. cbv zeta in *.
  set (input := build_values env_d kwargs) in *.
  revert H.
  settings_field (defaulted_section L env SettingsGeneral "general" input (default_general dflt)).
  settings_field (optional_section L env SettingsCORS "cors" input).
  settings_field (optional_section L env SettingsGitHub "github" input).
  settings_field (optional_section L env SettingsGitLab "gitlab" input).
  settings_field (optional_section L env SettingsAzureAD "azuread" input).
  settings_field (required_section L env SettingsSQLAlchemy "sqlalchemy" input).
  settings_field (required_section L env SettingsSession "session" input).
  settings_field (defaulted_section L env SettingsLocalStore "local_store" input (default_local_store dflt)).
  settings_field (optional_section L env SettingsS3 "s3" input).
  settings_field (optional_section L env SettingsAzureBlob "azure_blob" input).
  settings_field (optional_section L env SettingsGCS "gcs" input).
  settings_field (optional_section L env SettingsGoogle "google" input).
  settings_field (optional_section L env SettingsLogging "logging" input).
  settings_field (optional_section L env SettingsUsers "users" input).
  settings_field (optional_instance SettingsWorker "worker" input).
  settings_field (defaulted_section L env SettingsPlugins "plugins" input (default_plugins dflt)).
  settings_field (defaulted_section L env SettingsMirroring "mirroring" input (default_mirroring dflt)).
  settings_field (optional_section L env SettingsQuotas "quotas" input).
  settings_field (optional_section L env SettingsProfiling "profiling" input).
  cbn [errors_of app].
  destruct (extra_errors input (map fst Settings_fields)); [|discriminate].
  intros H. inversion H; subst s; clear H. cbn [general cors github gitlab azuread
    sqlalchemy session local_store s3 azure_blob gcs google logging users worker
    plugins mirroring quotas profiling].
  repeat split.
Qed.

(** ** More on the registry *)

Lemma run_keeps (L : Lib) (m : Module) (calls : list (World * option string))
    (cls : ClassState) (k : option string) (c : Config) :
  _instances cls !! k = Some c ->
  _instances (run L m calls cls) !! k = Some c.
Proof.
  revert cls. induction calls as [|[w d] calls IH]; intros cls H; simpl; auto.
  apply IH. now apply Config_new_keeps.
Qed.

Lemma Config_new_made (L : Lib) (m : Module) (w : World) (cls : ClassState)
    (d : option string) :
  made cls <= made (snd (Config_new L m w cls d)).
Proof.
  destruct (Config_new_cases L m w cls d)
    as [(c0 & _ & _ & ->)|[(c0 & _ & _ & ->)|[(e0 & _ & _ & _ & ->)|(c0 & _ & _ & _ & ->)]]];
    simpl; lia.
Qed.

(** X1: whatever calls follow, in whatever worlds, an entry of
    [_instances] stays what it is -- nothing is replaced or removed -- and
    the count of instances made does not go down. *)
Theorem registry_entries_are_kept (L : Lib) (m : Module)
    (calls : list (World * option string)) (cls : ClassState) :
  (forall k c, _instances cls !! k = Some c ->
               _instances (run L m calls cls) !! k = Some c)
  /\ made cls <= made (run L m calls cls).
Proof.
  split; [intros k c; apply run_keeps|].
  revert cls. induction calls as [|[w d] calls IH]; intros cls; simpl; [lia|].
  specialize (IH (snd (Config_new L m w cls d))).
  pose proof (Config_new_made L m w cls d). lia.
Qed.

(** X2: a call that raises leaves the class exactly as it was, so the
    instance that [__new__] had allocated is not registered under any key. *)
Theorem failed_call_changes_nothing (L : Lib) (m : Module) (w : World)
    (cls cls' : ClassState) (d : option string) (e : Exc) :
  Config_new L m w cls d = (Raise e, cls') -> cls' = cls.
Proof.
  intros H.
  destruct (Config_new_cases L m w cls d)
    as [(c0 & _ & _ & E)|[(c0 & _ & _ & E)|[(e0 & _ & _ & _ & E)|(c0 & _ & _ & _ & E)]]];
    rewrite E in H; inversion H; reflexivity.
Qed.

(** A call with an explicit, non-empty argument leaves its result under
    the path it resolved. *)
Lemma explicit_call_registers (L : Lib) (m : Module) (w : World)
    (cls cls' : ClassState) (d : option string) (c : Config) :
  opt_truthy d = true ->
  Config_new L m w cls d = (Ok c, cls') ->
  _instances cls' !! Some (resolved_path m w d) = Some c.
Proof.
  intros Hd H.
  destruct (Config_new_cases L m w cls d)
    as [(c0 & Hf & _ & E)|[(c0 & _ & Hp & E)|[(e0 & _ & _ & _ & E)|(c0 & _ & _ & _ & E)]]];
    rewrite E in H; inversion H; subst; clear H.
  - congruence.
  - exact Hp.
  - simpl. rewrite Hd. simpl. apply lookup_insert_eq.
Qed.

(** X3: in a process, two calls with explicit arguments that resolve to
    different paths return different instances, whatever happens between
    them. *)
Theorem distinct_paths_distinct_instances (L : Lib) (m : Module) (w1 w2 : World)
    (cls cls1 cls2 : ClassState) (d1 d2 : option string) (c1 c2 : Config)
    (calls : list (World * option string)) :
  reachable L m cls ->
  opt_truthy d1 = true -> opt_truthy d2 = true ->
  Config_new L m w1 cls d1 = (Ok c1, cls1) ->
  Config_new L m w2 (run L m calls cls1) d2 = (Ok c2, cls2) ->
  resolved_path m w1 d1 <> resolved_path m w2 d2 ->
  ident c1 <> ident c2.
Proof.
  intros Hreach Hd1 Hd2 H1 H2 Hne Hid.
  pose proof (explicit_call_registers L m w1 cls cls1 d1 c1 Hd1 H1) as R1.
  pose proof (explicit_call_registers L m w2 _ cls2 d2 c2 Hd2 H2) as R2.
  apply (run_keeps L m calls) in R1.
  apply (Config_new_keeps L m w2 _ d2) in R1. rewrite H2 in R1. simpl in R1.
  assert (Hinv : one_instance_per_path cls2).
  { apply one_instance_reachable with (L := L) (m := m).
    replace cls2 with (snd (Config_new L m w2 (run L m calls cls1) d2))
      by now rewrite H2.
    constructor. apply reachable_run.
    replace cls1 with (snd (Config_new L m w1 cls d1)) by now rewrite H1.
    now constructor. }
  destruct Hinv as (Hinj & _ & _).
  apply Hne. eapply Hinj; eauto.
Qed.

(** X4: once a call without argument has made an instance, every later
    call without argument returns it, in any world: files that appear or
    disappear and a changed QUETZ_CONFIG_FILE are not looked at again. *)
Theorem default_instance_is_final (L : Lib) (m : Module) (w w' : World)
    (cls cls1 : ClassState) (d d' : option string) (c : Config)
    (calls : list (World * option string)) :
  opt_truthy d = false -> opt_truthy d' = false ->
  _instances cls !! Some (resolved_path m w d) = None ->
  Config_new L m w cls d = (Ok c, cls1) ->
  Config_new L m w' (run L m calls cls1) d' = (Ok c, run L m calls cls1).
Proof.
  intros Hd Hd' Hmiss H.
  assert (Hnone : _instances cls1 !! None = Some c).
  { destruct (Config_new_cases L m w cls d)
      as [(c0 & _ & Hn & E)|[(c0 & _ & Hp & E)|[(e0 & _ & _ & _ & E)|(c0 & _ & _ & _ & E)]]];
      rewrite E in H; inversion H; subst; clear H.
    - exact Hn.
    - congruence.
    - simpl. rewrite Hd. simpl. apply lookup_insert_eq. }
  apply (run_keeps L m calls) in Hnone.
  unfold Config_new. rewrite Hd'. simpl. now rewrite Hnone.
Qed.

(** ** More on locating the file *)

(** X5: what [find_file] returns is a regular file, and one of the four
    candidates. *)
Theorem find_file_returns_an_existing_candidate (m : Module) (w : World)
    (d : option string) (f : string) :
  find_file m w d = Some f ->
  isfile w f = true
  /\ (f = path_join (_site_dir m) _filename
      \/ f = path_join (_user_dir m) _filename
      \/ d = Some f
      \/ getenv w "QUETZ_CONFIG_FILE" = Some f).
Proof.
  rewrite find_file_cases.
  destruct (isfile w (path_join (_site_dir m) _filename)) eqn:Hs.
  { intros H; inversion H; subst. auto. }
  destruct (isfile w (path_join (_user_dir m) _filename)) eqn:Hu.
  { intros H; inversion H; subst. auto. }
  destruct (opt_truthy d && opt_isfile w d) eqn:Hd.
  { intros H. subst d. apply andb_prop in Hd as [_ Hd]. simpl in Hd. auto 6. }
  destruct (opt_truthy (getenv w "QUETZ_CONFIG_FILE")
            && opt_isfile w (getenv w "QUETZ_CONFIG_FILE")) eqn:He; [|discriminate].
  intros H. apply andb_prop in He as [_ He]. rewrite H in He. simpl in He. auto 6.
Qed.

(** X6: an explicit path that is not a regular file is passed over in
    silence: the call locates what a call without argument locates. *)
Theorem unusable_explicit_path_is_ignored (m : Module) (w : World) (p : string) :
  isfile w p = false ->
  find_file m w (Some p) = find_file m w None
  /\ resolved_path m w (Some p) = resolved_path m w None.
Proof.
  intros H.
  assert (E : find_file m w (Some p) = find_file m w None).
  { rewrite !find_file_cases. simpl. rewrite H. now rewrite andb_false_r. }
  split; [exact E|]. unfold resolved_path. now rewrite E.
Qed.

(** ** More on loading *)




(** ** The sources of a field of a section *)







(** ** What [Settings] raises *)





(** ** Keys of the file *)









(** ** Sections of a resolved configuration *)

Lemma read_config_Ok (L : Lib) (m : Module) (w : World) (path : string)
    (doc : Dict) (s : Settings) :
  toml_file w path = Parsed doc ->
  _read_config L m w path = Ok s ->
  Settings_init L (environ w) (defaults m) doc = inl s.
Proof.
  unfold _read_config. intros ->.
  destruct (Settings_init L (environ w) (defaults m) doc) as [s'|x].
  - intros H. now inversion H.
  - destruct x; discriminate.
Qed.

Lemma validate_section_dict (L : Lib) (env : list (string * string))
    (c : SectionClass) (loc : string) (d : Dict) :
  validate_section L env c loc (VDict d)
  = match Section_init L env c d with
    | inl i => inl i
    | inr e => inr (nested loc e)
    end.
Proof. reflexivity. Qed.


(** The input of [Settings] under a key that the initialiser maps to a
    table: a table. *)
Lemma Settings_input_table (env_d kwargs : Dict) (k : string) (d : Dict) :
  List.NoDup (dict_keys kwargs) -> dict_get k kwargs = Some (VDict d) ->
  exists d', dict_get k (build_values env_d kwargs) = Some (VDict d')
             /\ (dict_get k env_d = None -> d' = d).
Proof.
  intros Hnd Hk. unfold build_values.
  rewrite (deep_update_get_hit kwargs _ k (VDict d) Hnd Hk).
  destruct (dict_get k (deep_update [] env_d)) as [o|] eqn:Ho.
  - destruct o; simpl; eexists; (split; [reflexivity|]); intros He;
      rewrite deep_update_get_None in Ho by (reflexivity || exact He); discriminate.
  - eauto.
Qed.

Ltac use_field_of k :=
  match goal with
  | Hr : required_section _ _ _ k ?input = inl _,
    Hl : dict_get k ?input = _ |- _ =>
      unfold required_section in Hr; rewrite Hl in Hr; cbv beta iota in Hr
  | Hr : defaulted_section _ _ _ k ?input _ = inl _,
    Hl : dict_get k ?input = _ |- _ =>
      unfold defaulted_section in Hr; rewrite Hl in Hr; cbv beta iota in Hr
  | Hr : optional_section _ _ _ k ?input = inl _,
    Hl : dict_get k ?input = _ |- _ =>
      unfold optional_section in Hr; rewrite Hl in Hr; cbv beta iota in Hr
  | Hr : optional_instance _ k ?input = inl _,
    Hl : dict_get k ?input = _ |- _ =>
      unfold optional_instance in Hr; rewrite Hl in Hr; cbv beta iota in Hr
  end.

Ltac settings_cases Hin :=
  unfold Settings_sections in Hin; simpl in Hin;
  repeat (destruct Hin as [Hin|Hin]; [inversion Hin; subst; clear Hin|]);
  [..|destruct Hin].

(** The attribute of a constructed [Settings] for a section whose input
    is a table: the instance the class makes of it. *)
Lemma section_of_input (L : Lib) (env : list (string * string)) (dflt : Defaults)
    (kwargs env_d : Dict) (s : Settings) (k : string) (c : SectionClass) (d : Dict) :
  Settings_init L env dflt kwargs = inl s ->
  env_settings L Settings_env_prefix Settings_fields (lowered_environ env) [] = inl env_d ->
  In (k, c) Settings_sections ->
  dict_get k (build_values env_d kwargs) = Some (VDict d) ->
  exists i, Settings_getattr s k = Ok (Some i) /\ Section_init L env c d = inl i.
Proof.
  intros Hinit Henv Hin Hl.
  destruct (Settings_init_inv L env dflt kwargs s Hinit) as (env_d' & Henv' & H).
  rewrite Henv in Henv'. inversion Henv'; subst env_d'. cbv zeta in H.
  destruct H as (? & ? & ? & ? & ? & ? & ? & ? & ? & ? & ? & ? & ? & ? & ? & ? & ? & ? & ? & ?).
  settings_cases Hin;
    match goal with
    | Hl : dict_get ?k _ = Some _ |- _ => use_field_of k
    end;
    match goal with
    | Hr : context [validate_section] |- _ =>
        rewrite validate_section_dict in Hr;
        destruct (Section_init L env _ d) as [i|e]; [|discriminate];
        exists i; split; [|reflexivity];
        inversion Hr; unfold Settings_getattr, Settings_dict; simpl; congruence
    end.
Qed.

Lemma Settings_sections_NoDup (k : string) (c : SectionClass) :
  In (k, c) Settings_sections -> List.NoDup (map fname (fields c)).
Proof.
  intros Hin. settings_cases Hin; simpl;
    repeat (constructor; [simpl; intuition discriminate|]); constructor.
Qed.


Lemma well_typed_validates (L : Lib) (t : FieldType) (v : Value) :
  well_typed t v = true -> validate_value L t v = inl v.
Proof.
  intros H. unfold validate_value. destruct v; try now rewrite H.
  destruct t; discriminate.
Qed.

(** X11: for every section of [Settings] and every field of its class: when
    the file holds a value for the field in the table of the section, and
    the environment does not give the section as a whole, a configuration
    that resolves has that value, validated, as the field of the section
    -- whatever the environment holds for the field; a value that has
    the declared type already is the field as it stands. *)
Theorem file_value_is_resolved (L : Lib) (m : Module) (w : World) (path : string)
    (doc : Dict) (s : Settings) (k : string) (c : SectionClass) (d : Dict)
    (f : Field) (v : Value) :
  toml_file w path = Parsed doc ->
  _read_config L m w path = Ok s ->
  List.NoDup (dict_keys doc) ->
  In (k, c) Settings_sections ->
  dict_get k doc = Some (VDict d) -> List.NoDup (dict_keys d) ->
  env_supplies w k = false ->
  In f (fields c) ->
  dict_get (fname f) d = Some v -> is_dict v = false ->
  exists i, Settings_getattr s k = Ok (Some i)
            /\ stored_as L i f v
            /\ (well_typed (ftype f) v = true -> Section_getattr i (fname f) = Ok v).
Proof.
  intros Hfile Hread Hdoc Hin Hk Hd Hsup Hf Hv Hscalar.
  pose proof (read_config_Ok L m w path doc s Hfile Hread) as Hinit.
  destruct (Settings_init_inv L _ _ _ _ Hinit) as (env_d & Henv & _).
  assert (Hvar : dict_get k env_d = None).
  { unfold env_supplies in Hsup.
    destruct (dict_get (lower (Settings_env_prefix ++ k)) (lowered_environ (environ w)))
      eqn:E; [discriminate|].
    now apply (env_settings_get_None L Settings_env_prefix Settings_fields
                 (lowered_environ (environ w)) [] env_d k E). }
  destruct (Settings_input_table env_d doc k d Hdoc Hk) as (d' & Hl & Hd').
  rewrite (Hd' Hvar) in Hl.
  destruct (section_of_input L _ _ _ env_d s k c d Hinit Henv Hin Hl) as (i & Hget & Hi).
  exists i. split; [exact Hget|].
  assert (Hstored : stored_as L i f v).
  { apply (Section_init_argument_wins L (environ w) c d i f v); auto.
    now apply (Settings_sections_NoDup k). }
  split; [exact Hstored|].
  intros Hwt. destruct Hstored as (v' & Hv' & Hattr).
  rewrite (well_typed_validates L (ftype f) v Hwt) in Hv'. congruence.
Qed.


(** X13: an optional section whose table is in the file is configured in
    every configuration the file resolves to: [configured_section] is
    true, whatever the table holds. *)
Theorem section_in_file_is_configured (L : Lib) (m : Module) (w : World)
    (path : string) (doc : Dict) (s : Settings) (self : nat)
    (k : string) (c : SectionClass) (d : Dict) :
  toml_file w path = Parsed doc ->
  _read_config L m w path = Ok s ->
  List.NoDup (dict_keys doc) ->
  In (k, c) Settings_sections ->
  dict_get k doc = Some (VDict d) ->
  configured_section {| ident := self; config := s |} k = Ok true.
Proof.
  intros Hfile Hread Hdoc Hin Hk.
  pose proof (read_config_Ok L m w path doc s Hfile Hread) as Hinit.
  destruct (Settings_init_inv L _ _ _ _ Hinit) as (env_d & Henv & _).
  destruct (Settings_input_table env_d doc k d Hdoc Hk) as (d' & Hl & _).
  destruct (section_of_input L _ _ _ env_d s k c d' Hinit Henv Hin Hl) as (i & Hget & _).
  unfold configured_section. simpl config. now rewrite Hget.
Qed.






(** ** The further statements at the sample process *)

Ltac nodup_strings :=
  repeat (constructor; [simpl; intuition discriminate|]); constructor.

Lemma registry_entries_are_kept_witness :
  _instances (run sample_lib sample_module later_calls after_first_call) !! None
  = Some minimal_config.
Proof.
  apply (proj1 (registry_entries_are_kept sample_lib sample_module later_calls
                  after_first_call) None minimal_config).
  reflexivity.
Defined.

Lemma failed_call_changes_nothing_witness :
  snd (Config_new sample_lib sample_module malformed_world initial_state None)
  = initial_state.
Proof.
  apply (failed_call_changes_nothing sample_lib sample_module malformed_world
           initial_state _ None
           (ConfigError "failed to load config file '/home/quetz/.config/quetz/config.toml': Invalid date or number (line 3 column 1 char 27)")).
  vm_compute. reflexivity.
Defined.

Lemma distinct_paths_distinct_instances_witness :
  ident minimal_config <> ident logging_config.
Proof.
  eapply (distinct_paths_distinct_instances sample_lib sample_module
            two_files_world two_files_world initial_state after_call_a _
            (Some sample_file_a) (Some sample_file_b) minimal_config logging_config
            [(two_files_world, Some sample_file_a)]).
  - constructor.
  - reflexivity.
  - reflexivity.
  - vm_compute. reflexivity.
  - vm_compute. reflexivity.
  - vm_compute. discriminate.
Defined.

Lemma default_instance_is_final_witness :
  Config_new sample_lib sample_module empty_world
    (run sample_lib sample_module later_calls after_first_call) (Some "")
  = (Ok minimal_config, run sample_lib sample_module later_calls after_first_call).
Proof.
  apply (default_instance_is_final sample_lib sample_module
           (site_world minimal_doc) empty_world initial_state after_first_call
           None (Some "") minimal_config later_calls).
  - reflexivity.
  - reflexivity.
  - reflexivity.
  - vm_compute. reflexivity.
Defined.

Lemma find_file_returns_an_existing_candidate_witness :
  isfile both_world sample_site_file = true
  /\ (sample_site_file = path_join (_site_dir sample_module) _filename
      \/ sample_site_file = path_join (_user_dir sample_module) _filename
      \/ None = Some sample_site_file
      \/ getenv both_world "QUETZ_CONFIG_FILE" = Some sample_site_file).
Proof.
  apply (find_file_returns_an_existing_candidate sample_module both_world None
           sample_site_file).
  vm_compute. reflexivity.
Defined.

Lemma unusable_explicit_path_is_ignored_witness :
  find_file sample_module (site_world minimal_doc) (Some "/srv/quetz/typo.toml")
  = find_file sample_module (site_world minimal_doc) None
  /\ resolved_path sample_module (site_world minimal_doc) (Some "/srv/quetz/typo.toml")
     = resolved_path sample_module (site_world minimal_doc) None.
Proof.
  apply (unusable_explicit_path_is_ignored sample_module (site_world minimal_doc)
           "/srv/quetz/typo.toml").
  reflexivity.
Defined.





Lemma file_value_is_resolved_witness :
  exists i,
    Settings_getattr override_settings "sqlalchemy" = Ok (Some i)
    /\ stored_as sample_lib i (required "database_url" TStr)
         (VStr "sqlite:///from-file.sqlite")
    /\ (well_typed TStr (VStr "sqlite:///from-file.sqlite") = true ->
        Section_getattr i "database_url" = Ok (VStr "sqlite:///from-file.sqlite")).
Proof.
  apply (file_value_is_resolved sample_lib sample_module override_world
           sample_site_file override_doc override_settings "sqlalchemy"
           SettingsSQLAlchemy
           [("database_url", VStr "sqlite:///from-file.sqlite")]
           (required "database_url" TStr) (VStr "sqlite:///from-file.sqlite")).
  - reflexivity.
  - vm_compute. reflexivity.
  - nodup_strings.
  - simpl. tauto.
  - reflexivity.
  - nodup_strings.
  - vm_compute. reflexivity.
  - simpl. tauto.
  - reflexivity.
  - reflexivity.
Defined.


Lemma section_in_file_is_configured_witness :
  configured_section {| ident := 0; config := logging_settings |} "logging" = Ok true.
Proof.
  apply (section_in_file_is_configured sample_lib sample_module
           (site_world logging_doc) sample_site_file logging_doc logging_settings 0
           "logging" SettingsLogging [("level", VStr "DEBUG")]).
  - reflexivity.
  - vm_compute. reflexivity.
  - nodup_strings.
  - simpl. tauto.
  - reflexivity.
Defined.



